(** * IngresoUNAM: the client-side route guard of [src/App.js]

    A shallow embedding of the authentication gate of the React front end:
    the [checkAuth] effect, the render function of [ProtectedRoute], the
    [AdminRoutes] wrapper and the route table of [AppRouter].

    JavaScript is embedded as follows.
    - Values are the type [JS.value]; [localStorage.getItem] returns
      [option string], [None] being JavaScript's [null].
    - An async function is a state transformer over a [World] that holds the
      browser storage, the log of the [fetch] exchanges, the React state of
      the guard instance and the views it committed.  Its result is a
      completion record: normal, [return], or a thrown error.
    - The backend is an oracle that answers a request from the exchanges
      made before it.

    The last part of the file covers more of the code: the requests of
    [checkAuth] in closed form, the route table as a whole, redirects
    followed from route to route, and the start of the animation of
    [AnimatedCounter]. *)

From Stdlib Require Import Ascii String List ZArith Bool.
From stdpp Require Import base strings gmap list.
Import ListNotations.

Local Open Scope string_scope.
Local Open Scope list_scope.
Set Warnings "-register-all".

(** ** JavaScript values and the operators the guard uses *)

Module JS.

Inductive value : Type :=
| JUndefined
| JNull
| JBool (b : bool)
| JNumber (n : Z)
| JString (s : string)
| JArray (items : list value)
| JObject (props : list (string * value)).

Inductive error : Type :=
| TypeError        (* property read on null or undefined *)
| FetchRejected    (* the promise of fetch rejects: network failure *)
| JsonRejected.    (* the promise of response.json() rejects *)

(** Completion of a statement list: it runs to its end with a value,
    leaves the function by [return], or throws. *)
Inductive completion (A : Type) : Type :=
| Normal (a : A)
| Return
| Throw (e : error).
Arguments Normal {A} a.
Arguments Return {A}.
Arguments Throw {A} e.

(** [ToBoolean] on the result of [getItem]: [null] and the empty string
    are falsy. *)
Definition truthy (item : option string) : bool :=
  match item with
  | Some s => negb (String.eqb s "")
  | None => false
  end.

(** [item === lit] for a [getItem] result and a string literal. *)
Definition strict_eq (item : option string) (lit : string) : bool :=
  match item with
  | Some s => String.eqb s lit
  | None => false
  end.

(** [item || lit] *)
Definition or_else (item : option string) (lit : string) : string :=
  if truthy item then default lit item else lit.

Fixpoint own_property (props : list (string * value)) (k : string) : value :=
  match props with
  | [] => JUndefined
  | (k', v) :: rest => if String.eqb k' k then v else own_property rest k
  end.

(** [v.k].  Reading a property of [null] or [undefined] throws; a
    primitive or an array has no property of the names the guard reads
    (built-in names such as [length] are outside this model). *)
Definition member (v : value) (k : string) : completion value :=
  match v with
  | JUndefined | JNull => Throw TypeError
  | JObject props => Normal (own_property props k)
  | JBool _ | JNumber _ | JString _ | JArray _ => Normal JUndefined
  end.

Definition nullish (v : value) : bool :=
  match v with
  | JUndefined | JNull => true
  | _ => false
  end.

(** [v?.k] *)
Definition optional_member (v : value) (k : string) : completion value :=
  if nullish v then Normal JUndefined else member v k.

(** [v !== lit] for a string literal. *)
Definition strict_neq_string (v : value) (lit : string) : bool :=
  match v with
  | JString s => negb (String.eqb s lit)
  | _ => true
  end.

End JS.
Import JS.

(** ** React state of the guard and what it renders *)

Record AuthState : Type := mkAuthState {
  loading : bool;
  authenticated : bool;
  user : JS.value
}.

(** The argument of a state setter: a new value, or an updater applied to
    the state at the time of the call. *)
Inductive SetStateAction : Type :=
| NewState (s : AuthState)
| Updater (f : AuthState -> AuthState).

Definition apply_action (a : SetStateAction) (s : AuthState) : AuthState :=
  match a with
  | NewState s' => s'
  | Updater f => f s
  end.

(** The value handed to descendants through [AuthContext.Provider]. *)
Record AuthContextValue : Type := mkAuthContextValue {
  ctx_user : JS.value;
  ctx_setUser : JS.value -> SetStateAction
}.

Inductive Page : Type :=
| Landing | Login | Register | Dashboard | Exam | Results | History
| Subjects | SubjectPractice | Plans | Subscription
| PaymentSuccess | PaymentCancel
| AdminDashboard | AdminQuestions | AdminSimulators | AdminUsers
| AdminReports | AdminReadingTexts | AdminFeedback.

(** JSX elements of the route table. *)
Inductive Element : Type :=
| EPage (p : Page)
| ENavigate (to : string) (replace : bool)
| EProtectedRoute (adminOnly : bool) (children : Element)
| EAdminDataProvider (children : Element)
| EFeedbackButton.

(** What one render of a route element returns. *)
Inductive View : Type :=
| VPage (p : Page)
| VSpinner
| VNavigate (to : string) (replace : bool)
| VAuthProvider (value : AuthContextValue) (children : list Element)
| VOther (e : Element).

(** ** The browser around the guard *)

(** The second argument of [fetch]; [credentials] is [None] when the option
    is not given. *)
Record Request : Type := mkRequest {
  url : string;
  credentials : option string;
  headers : list (string * string)
}.

(** A response: its [ok] flag and the value [json()] resolves to, [None]
    when the body is not JSON and [json()] rejects. *)
Record Response : Type := mkResponse {
  ok : bool;
  body : option JS.value
}.

Inductive FetchOutcome : Type :=
| Resolved (r : Response)
| Rejected.

(** The backend answers a request knowing the exchanges that came before. *)
Definition Backend : Type := list (Request * FetchOutcome) -> Request -> FetchOutcome.

Record World : Type := mkWorld {
  localStorage : gmap string string;
  network : list (Request * FetchOutcome);   (* oldest first *)
  authState : AuthState;
  commits : list View                         (* oldest first *)
}.

(** Code with effects on the world. *)
Definition Eff (A : Type) : Type := World -> JS.completion A * World.

Definition ret {A} (a : A) : Eff A := fun w => (Normal a, w).

Definition bind {A B} (m : Eff A) (k : A -> Eff B) : Eff B :=
  fun w =>
    match m w with
    | (Normal a, w') => k a w'
    | (Return, w') => (Return, w')
    | (Throw e, w') => (Throw e, w')
    end.

Declare Scope eff_scope.
Delimit Scope eff_scope with eff.
Bind Scope eff_scope with Eff.
Notation "x <- m ;; k" := (bind m (fun x => k))
  (at level 100, m at next level, k at level 200, right associativity) : eff_scope.
Notation "m ;; k" := (bind m (fun _ => k))
  (at level 100, k at level 200, right associativity) : eff_scope.
Local Open Scope eff_scope.

(** [return;] *)
Definition return_ {A} : Eff A := fun w => (Return, w).

Definition throw {A} (e : JS.error) : Eff A := fun w => (Throw e, w).

(** [if (c) { body }] *)
Definition when (c : bool) (body : Eff unit) : Eff unit :=
  if c then body else ret tt.

(** [try { body } catch (error) { handler }] *)
Definition try_catch (body : Eff unit) (handler : JS.error -> Eff unit) : Eff unit :=
  fun w =>
    match body w with
    | (Throw e, w') => handler e w'
    | r => r
    end.

(** The body of a function: [return] ends it normally. *)
Definition function_body (body : Eff unit) : Eff unit :=
  fun w =>
    match body w with
    | (Return, w') => (Normal tt, w')
    | r => r
    end.

(** A call whose promise nobody awaits: a rejection goes nowhere. *)
Definition floating (call : Eff unit) : Eff unit :=
  fun w => (Normal tt, snd (call w)).

Definition localStorage_getItem (k : string) : Eff (option string) :=
  fun w => (Normal (localStorage w !! k), w).

Definition localStorage_setItem (k v : string) : Eff unit :=
  fun w => (Normal tt,
            mkWorld (<[k := v]> (localStorage w)) (network w) (authState w) (commits w)).

Definition localStorage_removeItem (k : string) : Eff unit :=
  fun w => (Normal tt,
            mkWorld (delete k (localStorage w)) (network w) (authState w) (commits w)).

Definition setAuthState (a : SetStateAction) : Eff unit :=
  fun w => (Normal tt,
            mkWorld (localStorage w) (network w) (apply_action a (authState w)) (commits w)).

Definition commit (v : View) : Eff unit :=
  fun w => (Normal tt,
            mkWorld (localStorage w) (network w) (authState w) (commits w ++ [v])).

Section App.

Variable REACT_APP_BACKEND_URL : option string.
Variable backend : Backend.

Definition BACKEND_URL : string := JS.or_else REACT_APP_BACKEND_URL "http://localhost:8000".
Definition API : string := BACKEND_URL +:+ "/api".

(** [await fetch(url, init)]: the exchange is logged, a rejection throws. *)
Definition await_fetch (req : Request) : Eff Response :=
  fun w =>
    let out := backend (network w) req in
    let w' := mkWorld (localStorage w) (network w ++ [(req, out)]) (authState w) (commits w) in
    match out with
    | Resolved r => (Normal r, w')
    | Rejected => (Throw FetchRejected, w')
    end.

(** [await response.json()] *)
Definition await_json (r : Response) : Eff JS.value :=
  match body r with
  | Some v => ret v
  | None => throw JsonRejected
  end.

(** The [init] of the first [fetch]: credentials forwarded, and the stored
    token, or nothing, after [Bearer]. *)
Definition cookie_request (token : option string) : Request :=
  mkRequest (API +:+ "/auth/me") (Some "include")
            [("Authorization", "Bearer " +:+ JS.or_else token "")].

(** The [init] of the second [fetch]: the bearer header alone. *)
Definition token_request (token : string) : Request :=
  mkRequest (API +:+ "/auth/me") None
            [("Authorization", "Bearer " +:+ token)].

(** The async function of the effect.  Both [try] blocks leave the
    function by [return] once a user is verified; whatever they throw is
    caught, and the run goes on to the next statement. *)
Definition checkAuth : Eff unit :=
  function_body (
    storedUser <- localStorage_getItem "user" ;;
    isAuth <- localStorage_getItem "isAuthenticated" ;;
    when (JS.truthy storedUser && JS.strict_eq isAuth "true") (
      try_catch (
        bearer <- localStorage_getItem "token" ;;
        response <- await_fetch (cookie_request bearer) ;;
        when (ok response) (
          user <- await_json response ;;
          setAuthState (NewState (mkAuthState false true user)) ;;
          return_))
        (fun error => ret tt)) ;;
    token <- localStorage_getItem "token" ;;
    when (JS.truthy token) (
      try_catch (
        response <- await_fetch (token_request (default "" token)) ;;
        when (ok response) (
          user <- await_json response ;;
          setAuthState (NewState (mkAuthState false true user)) ;;
          return_))
        (fun error => ret tt)) ;;
    setAuthState (NewState (mkAuthState false false JNull))).

(** ** The guard *)

Definition initialAuthState : AuthState := mkAuthState true false JNull.

(** [(u) => setAuthState(s => ({ ...s, user: u }))] *)
Definition setUser (u : JS.value) : SetStateAction :=
  Updater (fun s => mkAuthState (loading s) (authenticated s) u).

(** [adminOnly && authState.user?.role !== "admin"]; the right operand is
    evaluated only when [adminOnly] holds. *)
Definition not_admin (adminOnly : bool) (s : AuthState) : JS.completion bool :=
  if adminOnly then
    match JS.optional_member (user s) "role" with
    | Normal role => Normal (JS.strict_neq_string role "admin")
    | Return => Return
    | Throw e => Throw e
    end
  else Normal false.

(** What the component function returns for the state it is rendered
    with. *)
Definition ProtectedRoute (adminOnly : bool) (children : Element) (s : AuthState)
  : JS.completion View :=
  if loading s then Normal VSpinner
  else if negb (authenticated s) then Normal (VNavigate "/login" true)
  else
    match not_admin adminOnly s with
    | Normal true => Normal (VNavigate "/dashboard" true)
    | Normal false =>
        Normal (VAuthProvider (mkAuthContextValue (user s) setUser)
                              [children; EFeedbackButton])
    | Return => Return
    | Throw e => Throw e
    end.

Definition AdminRoutes (children : Element) : Element :=
  EProtectedRoute true (EAdminDataProvider children).

Definition render_element (e : Element) (s : AuthState) : JS.completion View :=
  match e with
  | EPage p => Normal (VPage p)
  | ENavigate to replace => Normal (VNavigate to replace)
  | EProtectedRoute adminOnly children => ProtectedRoute adminOnly children s
  | EAdminDataProvider _ | EFeedbackButton => Normal (VOther e)
  end.

(** *** Life cycle of a guard instance

    React calls the component function when the instance mounts, when its
    state is set and when the location it subscribes to changes; an effect
    with dependency [location] runs after the commit of the first render and
    of every render that saw a new location. *)

Definition lift {A} (c : JS.completion A) : Eff A := fun w => (c, w).

(** One render of the guard with the state it has, and its commit. *)
Definition render (adminOnly : bool) (children : Element) : Eff unit :=
  fun w => (v <- lift (ProtectedRoute adminOnly children (authState w)) ;; commit v) w.

(** [useState(...)] on the first render of an instance. *)
Definition useState_mount : Eff unit :=
  fun w => (Normal tt, mkWorld (localStorage w) (network w) initialAuthState (commits w)).

(** The effect [() => { ...; checkAuth(); }]: the promise is dropped. *)
Definition effect : Eff unit := floating checkAuth.

(** A new instance: first render, then the effect, then the render that
    the [setAuthState] of [checkAuth] asks for. *)
Definition mount (adminOnly : bool) (children : Element) : Eff unit :=
  useState_mount ;;
  render adminOnly children ;;
  effect ;;
  render adminOnly children.

(** The location changes while the instance stays mounted. *)
Definition location_change (adminOnly : bool) (children : Element) : Eff unit :=
  render adminOnly children ;;
  effect ;;
  render adminOnly children.

(** ** The route table *)

Definition AppRouter : list (string * Element) :=
  [ ("/", EPage Landing);
    ("/login", EPage Login);
    ("/register", EPage Register);
    ("/dashboard", EProtectedRoute false (EPage Dashboard));
    ("/simulators", ENavigate "/dashboard" true);
    ("/exam/:simulatorId", EProtectedRoute false (EPage Exam));
    ("/results/:attemptId", EProtectedRoute false (EPage Results));
    ("/history", EProtectedRoute false (EPage History));
    ("/subjects", EProtectedRoute false (EPage Subjects));
    ("/subjects/:subjectId", EProtectedRoute false (EPage SubjectPractice));
    ("/plans", EProtectedRoute false (EPage Plans));
    ("/subscription", EProtectedRoute false (EPage Subscription));
    ("/payment/success", EProtectedRoute false (EPage PaymentSuccess));
    ("/payment/cancel", EProtectedRoute false (EPage PaymentCancel));
    ("/admin", AdminRoutes (EPage AdminDashboard));
    ("/admin/questions", AdminRoutes (EPage AdminQuestions));
    ("/admin/simulators", AdminRoutes (EPage AdminSimulators));
    ("/admin/users", AdminRoutes (EPage AdminUsers));
    ("/admin/reports", AdminRoutes (EPage AdminReports));
    ("/admin/reading-texts", AdminRoutes (EPage AdminReadingTexts));
    ("/admin/feedback", AdminRoutes (EPage AdminFeedback)) ].

(** The segments of a path between slashes, empty ones dropped.  For a
    pattern of the table and for a pathname with single slashes this is
    how the router cuts a path; a pathname with a doubled slash inside,
    which the router matches against no route, is cut here as if the
    slash were single. *)
Fixpoint split_slash (s cur : string) : list string :=
  match s with
  | EmptyString => [cur]
  | String c rest =>
      if Ascii.eqb c "/"%char then cur :: split_slash rest ""
      else split_slash rest (cur +:+ String c "")
  end.

Definition segments (path : string) : list string :=
  List.filter (fun seg => negb (String.eqb seg "")) (split_slash path "").

Definition dynamic (seg : string) : bool :=
  match seg with
  | String c _ => Ascii.eqb c ":"%char
  | EmptyString => false
  end.

Fixpoint match_segments (pattern path : list string) : bool :=
  match pattern, path with
  | [], [] => true
  | p :: ps, s :: ss => (dynamic p || String.eqb p s) && match_segments ps ss
  | _, _ => false
  end.

(** A route pattern against a pathname: static segments are compared, a
    [:param] segment takes any segment.  The router does more before it
    compares: it decodes percent escapes and folds case.  Neither is
    modelled, nor its refusal of doubled slashes, so this function decides
    as the router does on the pathnames that [plain] accepts, and is used
    for nothing else where the difference would show. *)
Definition matchPath (pattern pathname : string) : bool :=
  match_segments (segments pattern) (segments pathname).

Definition matches (pathname : string) : list (string * Element) :=
  List.filter (fun r => matchPath (fst r) pathname) AppRouter.

(** [<Routes>]: the element of the route that matches the pathname.  No
    pathname matches two patterns of this table ([routes_never_overlap]
    below), so the ranking the router applies among several matches plays
    no part. *)
Definition Routes (pathname : string) : option Element :=
  match matches pathname with
  | r :: _ => Some (snd r)
  | [] => None
  end.

Definition mount_element (e : Element) : Eff unit :=
  match e with
  | EProtectedRoute adminOnly children => mount adminOnly children
  | EPage p => commit (VPage p)
  | ENavigate to replace => commit (VNavigate to replace)
  | EAdminDataProvider _ | EFeedbackButton => commit (VOther e)
  end.

(** The browser opens the application at [pathname]. *)
Definition visit (pathname : string) : Eff unit :=
  match Routes pathname with
  | Some e => mount_element e
  | None => ret tt
  end.

End App.

(** ** Vocabulary of the statements *)

(** The user an attempt verifies: the response resolved, its status is a
    success and its body is JSON. *)
Definition verified (out : FetchOutcome) : option JS.value :=
  match out with
  | Resolved r => if ok r then body r else None
  | Rejected => None
  end.

(** The stored session flag together with a stored user, as line 46 of
    [App.js] tests them. *)
Definition session_check (ls : gmap string string) : bool :=
  JS.truthy (ls !! "user") && JS.strict_eq (ls !! "isAuthenticated") "true".

(** The exchanges a run added to the log. *)
Definition new_exchanges (before after : World) : list (Request * FetchOutcome) :=
  drop (length (network before)) (network after).

Definition new_commits (before after : World) : list View :=
  drop (length (commits before)) (commits after).

(** The children a view puts on the screen. *)
Definition rendered_children (v : View) : list Element :=
  match v with
  | VAuthProvider _ children => children
  | _ => []
  end.

Inductive Decision : Type :=
| Placeholder
| RedirectToLogin
| RedirectToDashboard
| RenderChildren
| Elsewhere.

Definition decision (v : View) : Decision :=
  match v with
  | VSpinner => Placeholder
  | VNavigate to true =>
      if String.eqb to "/login" then RedirectToLogin
      else if String.eqb to "/dashboard" then RedirectToDashboard
      else Elsewhere
  | VAuthProvider _ _ => RenderChildren
  | _ => Elsewhere
  end.

Definition guarded (e : Element) : bool :=
  match e with
  | EProtectedRoute _ _ => true
  | _ => false
  end.

Definition admin_gated (e : Element) : bool :=
  match e with
  | EProtectedRoute adminOnly _ => adminOnly
  | _ => false
  end.

Definition Unauthenticated : AuthState := mkAuthState false false JNull.
Definition Authenticated (u : JS.value) : AuthState := mkAuthState false true u.

(** Runs of exchanges that respect the order of the attempts: the
    cookie-based request [c], when made, comes first; the token request
    [t], when made, comes last, and after a cookie-based attempt only if
    that one verified nobody. *)
Inductive in_order (c t : Request) : list (Request * FetchOutcome) -> Prop :=
| order_none : in_order c t []
| order_cookie (o : FetchOutcome) : in_order c t [(c, o)]
| order_token (o : FetchOutcome) : in_order c t [(t, o)]
| order_cookie_token (o1 o2 : FetchOutcome) :
    verified o1 = None -> in_order c t [(c, o1); (t, o2)].

(** Two patterns that some pathname can match both. *)
Fixpoint compatible (p q : list string) : bool :=
  match p, q with
  | [], [] => true
  | a :: p', b :: q' => (dynamic a || dynamic b || String.eqb a b) && compatible p' q'
  | _, _ => false
  end.

Fixpoint pairwise_apart (patterns : list (list string)) : bool :=
  match patterns with
  | [] => true
  | p :: rest => forallb (fun q => negb (compatible p q)) rest && pairwise_apart rest
  end.

(** What the table asks of a visitor, route by route. *)
Inductive Requirement : Type := Public | NeedsLogin | NeedsAdmin.

Definition requirement (e : Element) : Requirement :=
  match e with
  | EProtectedRoute true _ => NeedsAdmin
  | EProtectedRoute false _ => NeedsLogin
  | _ => Public
  end.

(** ** Following redirects

    A committed [<Navigate to=... />] moves the router to [to], and
    [<Routes>] renders the element of the route found there.  In this table
    a redirect always leaves the element that issued it for one of another
    component, so the element at the target mounts anew. *)

(** *** Pathnames on which the matcher and the router agree *)

Definition upper_case (c : ascii) : bool :=
  (65 <=? nat_of_ascii c)%nat && (nat_of_ascii c <=? 90)%nat.

(** No percent escape and no upper-case letter. *)
Fixpoint plain_chars (s : string) : bool :=
  match s with
  | EmptyString => true
  | String c rest =>
      negb (Ascii.eqb c "%"%char) && negb (upper_case c) && plain_chars rest
  end.

(** No slash followed by a slash. *)
Fixpoint single_slashes (s : string) : bool :=
  match s with
  | EmptyString => true
  | String a rest =>
      match rest with
      | String b _ => negb (Ascii.eqb a "/"%char && Ascii.eqb b "/"%char)
      | EmptyString => true
      end && single_slashes rest
  end.

(** A pathname that the router matches as it is written: it starts with a
    slash, has nothing to decode, no case to fold and no doubled slash. *)
Definition plain (pathname : string) : bool :=
  match pathname with
  | String c _ => Ascii.eqb c "/"%char
  | EmptyString => false
  end && plain_chars pathname && single_slashes pathname.

(** A view that sends the router nowhere. *)
Definition settled (v : View) : bool :=
  match v with
  | VNavigate _ _ => false
  | _ => true
  end.

(** A string without a slash: one segment of a path. *)
Fixpoint slash_free (s : string) : bool :=
  match s with
  | EmptyString => true
  | String c rest => negb (Ascii.eqb c "/"%char) && slash_free rest
  end.

(** Where the last view committed between two worlds sends the router. *)
Definition redirect_of (before after : World) : option string :=
  match last (new_commits before after) with
  | Some (VNavigate to _) => Some to
  | _ => None
  end.

Section Navigation.

Variable REACT_APP_BACKEND_URL : option string.
Variable backend : Backend.

(** Open [pathname] and follow the redirects, at most [hops] routes in
    all. *)
Fixpoint browse (hops : nat) (pathname : string) : Eff unit :=
  fun w =>
    match hops with
    | O => (Normal tt, w)
    | S n =>
        match visit REACT_APP_BACKEND_URL backend pathname w with
        | (Normal _, w') =>
            match redirect_of w w' with
            | Some to => browse n to w'
            | None => (Normal tt, w')
            end
        | r => r
        end
    end.

End Navigation.

(** ** The animated counter ([AnimatedCounter])

    The part of the component that decides whether an animation starts and
    towards which target.  The frames themselves compute with floating
    point numbers and the clock, and are not modelled: a started animation
    is recorded with what its closure captures. *)

Module Counter.

(** [a ?? b] *)
Definition coalesce (a b : JS.value) : JS.value :=
  if JS.nullish a then b else a.

(** A parameter with a default: the default stands in for [undefined]
    only. *)
Definition default_param (given dflt : JS.value) : JS.value :=
  match given with
  | JUndefined => dflt
  | _ => given
  end.

(** The props the effect reads; a prop that is not passed is
    [undefined]. *)
Record Props : Type := mkProps {
  value : JS.value;
  end_ : JS.value;
  duration : JS.value
}.

(** [value ?? end ?? 0] *)
Definition targetValue (p : Props) : JS.value :=
  coalesce (coalesce (value p) (end_ p)) (JNumber 0).

(** What [animate] captures when the effect creates it: [Date.now()], the
    target that [Number(...)] is applied to, and the duration. *)
Record Animation : Type := mkAnimation {
  startTime : Z;
  target : JS.value;
  seconds : JS.value
}.

(** An instance: the [hasAnimated] ref and the animations handed to
    [requestAnimationFrame] so far, oldest first. *)
Record Instance : Type := mkInstance {
  hasAnimated : bool;
  requested : list Animation
}.

Definition initial : Instance := mkInstance false [].

(** One render: the flag of [useInView], the props and the clock at the
    time its effect runs. *)
Record Render : Type := mkRender {
  isInView : bool;
  props : Props;
  now : Z
}.

(** The body of the effect. *)
Definition effect (st : Instance) (r : Render) : Instance :=
  if isInView r && negb (hasAnimated st) then
    mkInstance true
      (requested st ++
       [mkAnimation (now r) (targetValue (props r))
                    (default_param (duration (props r)) (JNumber 2))])
  else st.

(** The effects of a run of renders, in order. *)
Definition run (renders : list Render) : Instance :=
  fold_left effect renders initial.

End Counter.

(** ** Sample stores, users and backends *)

Definition student : JS.value :=
  JObject [("id", JString "u-17"); ("email", JString "ana@example.mx");
           ("role", JString "user")].

Definition administrator : JS.value :=
  JObject [("id", JString "u-1"); ("email", JString "root@example.mx");
           ("role", JString "admin")].

Definition profile_without_role : JS.value :=
  JObject [("id", JString "u-23"); ("email", JString "luz@example.mx")].

Definition empty_store : gmap string string := ∅.

Definition session_store : gmap string string :=
  <["user" := "{}"]> (<["isAuthenticated" := "true"]> ∅).

Definition token_store : gmap string string :=
  <["token" := "t0k3n"]> ∅.

Definition full_store : gmap string string :=
  <["token" := "t0k3n"]> session_store.

Definition backend_down : Backend := fun _ _ => Rejected.

Definition backend_401 : Backend := fun _ _ => Resolved (mkResponse false None).

Definition backend_200 (u : JS.value) : Backend :=
  fun _ _ => Resolved (mkResponse true (Some u)).

(** Accepts a bearer token only: a request that forwards credentials gets
    a 401. *)
Definition backend_bearer_only (u : JS.value) : Backend :=
  fun _ req =>
    match credentials req with
    | Some _ => Resolved (mkResponse false None)
    | None => Resolved (mkResponse true (Some u))
    end.

Definition fresh (ls : gmap string string) : World :=
  mkWorld ls [] initialAuthState [].

(** ** Unfolding of the effectful definitions *)

Ltac unfold_eff :=
  unfold function_body, bind, when, try_catch, localStorage_getItem,
         await_fetch, await_json, setAuthState, return_, ret, throw, apply_action.

Ltac unfold_checkAuth := unfold checkAuth; unfold_eff.
Ltac unfold_effect := unfold effect, floating.
Ltac unfold_mount := unfold mount; unfold bind at 1; unfold useState_mount.
Ltac unfold_location_change := unfold location_change; unfold bind at 1.
Ltac unfold_requests := unfold cookie_request, token_request, API, BACKEND_URL.
Ltac unfold_visit := unfold visit, mount_element.
Ltac simpl_route := cbn -[browse visit mount].

(** ** Properties of the render function *)

Section Render.

Variable children : Element.

Lemma optional_member_total (v : JS.value) (k : string) :
  exists r, JS.optional_member v k = Normal r.
Proof.
  destruct v; simpl; eauto.
Qed.

Lemma member_null_throws (k : string) :
  JS.member JNull k = Throw TypeError /\ JS.member JUndefined k = Throw TypeError.
Proof. split; reflexivity. Qed.

Lemma strict_neq_string_true (v : JS.value) (lit : string) :
  v <> JString lit -> JS.strict_neq_string v lit = true.
Proof.
  intros Hne. destruct v as [| | | |s| |]; simpl; try reflexivity.
  destruct (String.eqb_spec s lit) as [->|]; [congruence | reflexivity].
Qed.

Lemma not_admin_normal (adminOnly : bool) (s : AuthState) :
  exists b, not_admin adminOnly s = Normal b.
Proof.
  unfold not_admin. destruct adminOnly; [|eauto].
  destruct (optional_member_total (user s) "role") as [r ->]. eauto.
Qed.

Lemma ProtectedRoute_loading (adminOnly : bool) (s : AuthState) :
  loading s = true -> ProtectedRoute adminOnly children s = Normal VSpinner.
Proof. intros H. unfold ProtectedRoute. now rewrite H. Qed.

Lemma ProtectedRoute_unauthenticated (adminOnly : bool) (s : AuthState) :
  loading s = false -> authenticated s = false ->
  ProtectedRoute adminOnly children s = Normal (VNavigate "/login" true).
Proof. intros Hl Ha. unfold ProtectedRoute. now rewrite Hl, Ha. Qed.

Lemma ProtectedRoute_authenticated (adminOnly : bool) (s : AuthState) :
  loading s = false -> authenticated s = true ->
  exists b, not_admin adminOnly s = Normal b /\
    ProtectedRoute adminOnly children s =
      Normal (if b then VNavigate "/dashboard" true
              else VAuthProvider (mkAuthContextValue (user s) setUser)
                                 [children; EFeedbackButton]).
Proof.
  intros Hl Ha. destruct (not_admin_normal adminOnly s) as [b Hb].
  exists b. split; [exact Hb|].
  unfold ProtectedRoute. rewrite Hl, Ha, Hb. now destruct b.
Qed.

End Render.

(** ** Properties of the route table *)

Lemma match_compatible (p q segs : list string) :
  match_segments p segs = true -> match_segments q segs = true ->
  compatible p q = true.
Proof.
  revert q segs. induction p as [|a p IH]; intros [|b q] [|s segs]; simpl;
    try discriminate; try reflexivity.
  intros Hp Hq. apply andb_prop in Hp as [Ha Hp], Hq as [Hb Hq].
  rewrite (IH q segs Hp Hq), andb_true_r.
  destruct (dynamic a); [reflexivity|]. destruct (dynamic b); [reflexivity|].
  simpl in *. apply String.eqb_eq in Ha, Hb. subst. apply String.eqb_refl.
Qed.

Lemma pairwise_apart_one_match (patterns : list (list string)) (segs : list string) :
  pairwise_apart patterns = true ->
  length (List.filter (fun p => match_segments p segs) patterns) <= 1.
Proof.
  induction patterns as [|p rest IH]; simpl; [lia|].
  intros H. apply andb_prop in H as [Hp Hrest].
  destruct (match_segments p segs) eqn:Hm; [|now apply IH].
  assert (Hnone : List.filter (fun q => match_segments q segs) rest = []).
  { clear IH Hrest. induction rest as [|q rest IH]; simpl; [reflexivity|].
    simpl in Hp. apply andb_prop in Hp as [Hq Hp].
    destruct (match_segments q segs) eqn:Hq'; [|now apply IH].
    rewrite (match_compatible p q segs Hm Hq') in Hq. discriminate. }
  rewrite Hnone. simpl. lia.
Qed.

Lemma filter_map_length {A B} (f : B -> bool) (g : A -> B) (l : list A) :
  length (List.filter (fun x => f (g x)) l) = length (List.filter f (List.map g l)).
Proof.
  induction l as [|x l IH]; simpl; [reflexivity|].
  destruct (f (g x)); simpl; now rewrite IH.
Qed.

(** No pathname matches two routes of the table, so [Routes] has no choice
    to make. *)
Lemma routes_never_overlap (pathname : string) : length (matches pathname) <= 1.
Proof.
  unfold matches, matchPath.
  rewrite (filter_map_length (fun p => match_segments p (segments pathname))
             (fun r => segments (fst r))).
  apply pairwise_apart_one_match. vm_compute. reflexivity.
Qed.

Lemma route_requirements :
  List.map (fun r => (fst r, requirement (snd r))) AppRouter
  = [ ("/", Public); ("/login", Public); ("/register", Public);
      ("/dashboard", NeedsLogin); ("/simulators", Public);
      ("/exam/:simulatorId", NeedsLogin); ("/results/:attemptId", NeedsLogin);
      ("/history", NeedsLogin); ("/subjects", NeedsLogin);
      ("/subjects/:subjectId", NeedsLogin); ("/plans", NeedsLogin);
      ("/subscription", NeedsLogin); ("/payment/success", NeedsLogin);
      ("/payment/cancel", NeedsLogin); ("/admin", NeedsAdmin);
      ("/admin/questions", NeedsAdmin); ("/admin/simulators", NeedsAdmin);
      ("/admin/users", NeedsAdmin); ("/admin/reports", NeedsAdmin);
      ("/admin/reading-texts", NeedsAdmin); ("/admin/feedback", NeedsAdmin) ].
Proof. reflexivity. Qed.

(** C1.  A route wrapped in the guard, whose verification resolved to
    unauthenticated ([loading = false], [authenticated = false]), renders
    [<Navigate to="/login" replace />] and puts none of its children on the
    screen; this holds for any guard and so for every guarded route of the
    table. *)
Theorem unauthenticated_redirects_to_login
    (adminOnly : bool) (children : Element) (s : AuthState) :
  loading s = false -> authenticated s = false ->
  render_element (EProtectedRoute adminOnly children) s = Normal (VNavigate "/login" true)
  /\ rendered_children (VNavigate "/login" true) = []
  /\ forall path e, In (path, e) AppRouter -> guarded e = true ->
       render_element e s = Normal (VNavigate "/login" true).
Proof.
  intros Hl Ha. split; [|split].
  - simpl. now apply ProtectedRoute_unauthenticated.
  - reflexivity.
  - intros path e _ Hg. destruct e; try discriminate Hg.
    simpl. now apply ProtectedRoute_unauthenticated.
Qed.

Lemma unauthenticated_redirects_to_login_witness :
  loading Unauthenticated = false /\ authenticated Unauthenticated = false /\
  render_element (EProtectedRoute false (EPage Dashboard)) Unauthenticated
    = Normal (VNavigate "/login" true).
Proof.
  split; [reflexivity | split; [reflexivity |]].
  apply (unauthenticated_redirects_to_login false (EPage Dashboard) Unauthenticated);
    reflexivity.
Defined.

(** C2.  On an admin-gated route ([adminOnly = true], which is what
    [AdminRoutes] passes), a guard that is authenticated while the role of
    the verified user is not ["admin"] renders
    [<Navigate to="/dashboard" replace />] and none of the admin children;
    every route of the table built with [AdminRoutes] is such a route. *)
Theorem non_admin_redirects_to_dashboard (children : Element) (s : AuthState) :
  loading s = false -> authenticated s = true ->
  JS.optional_member (user s) "role" <> Normal (JString "admin") ->
  render_element (EProtectedRoute true children) s = Normal (VNavigate "/dashboard" true)
  /\ render_element (AdminRoutes children) s = Normal (VNavigate "/dashboard" true)
  /\ rendered_children (VNavigate "/dashboard" true) = []
  /\ forall path e, In (path, e) AppRouter -> admin_gated e = true ->
       render_element e s = Normal (VNavigate "/dashboard" true).
Proof.
  intros Hl Ha Hrole.
  assert (Hgen : forall c, ProtectedRoute true c s = Normal (VNavigate "/dashboard" true)).
  { intros c. destruct (ProtectedRoute_authenticated c true s Hl Ha) as [b [Hb ->]].
    unfold not_admin in Hb.
    destruct (optional_member_total (user s) "role") as [r Hr].
    rewrite Hr in Hb, Hrole. injection Hb as <-.
    rewrite strict_neq_string_true; [reflexivity | congruence]. }
  repeat split.
  - apply Hgen.
  - apply Hgen.
  - intros path e _ Hg. destruct e as [| |a c| |]; try discriminate Hg.
    simpl in Hg. subst a. apply Hgen.
Qed.

Lemma non_admin_redirects_to_dashboard_witness :
  loading (Authenticated student) = false /\
  authenticated (Authenticated student) = true /\
  render_element (AdminRoutes (EPage AdminUsers)) (Authenticated student)
    = Normal (VNavigate "/dashboard" true).
Proof.
  split; [reflexivity | split; [reflexivity |]].
  apply (non_admin_redirects_to_dashboard (EPage AdminUsers) (Authenticated student));
    [reflexivity | reflexivity | discriminate].
Defined.

(** C10.  With [adminOnly = true] and an authenticated guard whose user is
    [null], [undefined], a value that is no object, an object without a
    [role] property, or an object whose [role] is not ["admin"], the
    optional chain [authState.user?.role] yields a value rather than
    throwing, the render completes normally, and it is the redirect to
    [/dashboard]. *)
Theorem role_check_is_total (children : Element) (s : AuthState) :
  loading s = false -> authenticated s = true ->
  (forall props, user s = JObject props ->
                 JS.own_property props "role" <> JString "admin") ->
  (exists role, JS.optional_member (user s) "role" = Normal role /\
                role <> JString "admin")
  /\ not_admin true s = Normal true
  /\ ProtectedRoute true children s = Normal (VNavigate "/dashboard" true).
Proof.
  intros Hl Ha Hrole.
  assert (Hopt : exists role, JS.optional_member (user s) "role" = Normal role /\
                              role <> JString "admin").
  { destruct (user s) as [| | | | | |props] eqn:Hu; simpl;
      try (eexists; split; [reflexivity | discriminate]).
    exists (JS.own_property props "role"). split; [reflexivity|].
    now apply Hrole. }
  destruct Hopt as [role [Hopt Hne]].
  assert (Hna : not_admin true s = Normal true).
  { unfold not_admin. rewrite Hopt. now rewrite strict_neq_string_true. }
  split; [eauto | split; [exact Hna |]].
  unfold ProtectedRoute. now rewrite Hl, Ha, Hna.
Qed.

Lemma role_check_is_total_witness :
  loading (Authenticated JNull) = false /\
  authenticated (Authenticated JNull) = true /\
  JS.member JNull "role" = Throw TypeError /\
  ProtectedRoute true (EPage AdminUsers) (Authenticated JNull)
    = Normal (VNavigate "/dashboard" true).
Proof.
  split; [reflexivity | split; [reflexivity | split; [reflexivity |]]].
  apply (role_check_is_total (EPage AdminUsers) (Authenticated JNull));
    [reflexivity | reflexivity | discriminate].
Defined.

(** C9.  The [setUser] that a rendering guard hands to its descendants
    through the context, called with any value [u] in any later state of the
    guard, sets the [user] field to [u] and keeps [loading] and
    [authenticated]; storage, network log and commits are untouched. *)
Theorem setUser_updates_only_user
    (adminOnly : bool) (children : Element) (rendered : AuthState)
    (value : AuthContextValue) (shown : list Element) (u : JS.value) (w : World) :
  ProtectedRoute adminOnly children rendered = Normal (VAuthProvider value shown) ->
  ctx_user value = user rendered
  /\ setAuthState (ctx_setUser value u) w
     = (Normal tt,
        mkWorld (localStorage w) (network w)
                (mkAuthState (loading (authState w)) (authenticated (authState w)) u)
                (commits w)).
Proof.
  intros Hr. unfold ProtectedRoute in Hr.
  destruct (loading rendered); [discriminate|].
  destruct (authenticated rendered); [|discriminate].
  destruct (not_admin adminOnly rendered) as [[|]| |]; try discriminate.
  injection Hr as <- <-. split; reflexivity.
Qed.

Lemma setUser_updates_only_user_witness :
  authState (snd (setAuthState (setUser administrator)
                    (mkWorld token_store [] (Authenticated student) [])))
  = Authenticated administrator.
Proof.
  pose proof (setUser_updates_only_user false (EPage Dashboard) (Authenticated student)
                (mkAuthContextValue student setUser)
                [EPage Dashboard; EFeedbackButton] administrator
                (mkWorld token_store [] (Authenticated student) []) eq_refl) as [_ H].
  simpl in H. rewrite H. reflexivity.
Defined.

(** ** Properties of the verification *)

Section Verification.

Variable REACT_APP_BACKEND_URL : option string.
Variable backend : Backend.

Local Abbreviation checkAuth := (checkAuth REACT_APP_BACKEND_URL backend).
Local Abbreviation cookie_request := (cookie_request REACT_APP_BACKEND_URL).
Local Abbreviation token_request := (token_request REACT_APP_BACKEND_URL).
Local Abbreviation mount := (mount REACT_APP_BACKEND_URL backend).
Local Abbreviation location_change := (location_change REACT_APP_BACKEND_URL backend).
Local Abbreviation visit := (visit REACT_APP_BACKEND_URL backend).

(** One run of [checkAuth], path by path. *)
Lemma checkAuth_run (w : World) :
  checkAuth w =
    let ls := localStorage w in
    let c := cookie_request (ls !! "token") in
    let t := token_request (default "" (ls !! "token")) in
    let first := if session_check ls then [(c, backend (network w) c)] else [] in
    let second :=
      if JS.truthy (ls !! "token") then [(t, backend (network w ++ first) t)] else [] in
    (Normal tt,
     match (if session_check ls then verified (backend (network w) c) else None) with
     | Some u => mkWorld ls (network w ++ first) (Authenticated u) (commits w)
     | None =>
         mkWorld ls (network w ++ first ++ second)
           (match (if JS.truthy (ls !! "token")
                   then verified (backend (network w ++ first) t) else None) with
            | Some u => Authenticated u
            | None => Unauthenticated
            end)
           (commits w)
     end).
Proof.
  cbv zeta. unfold_checkAuth.
  fold (session_check (localStorage w)).
  destruct (session_check (localStorage w)); simpl.
  - destruct (backend (network w) _) as [[[] [u|]]|]; simpl; try reflexivity;
      (destruct (JS.truthy (localStorage w !! "token")); simpl;
       [|now rewrite ?app_nil_r];
       match goal with
       | |- context [backend ?h ?r] => destruct (backend h r) as [[[] [u'|]]|]
       end; simpl; rewrite <- ?app_assoc; reflexivity).
  - rewrite ?app_nil_r.
    destruct (JS.truthy (localStorage w !! "token")); simpl;
      [|now rewrite ?app_nil_r].
    destruct (backend (network w) _) as [[[] [u'|]]|]; reflexivity.
Qed.

Lemma verified_None_iff (out : FetchOutcome) :
  verified out = None <->
  out = Rejected \/
  exists r, out = Resolved r /\ (ok r = false \/ body r = None).
Proof.
  split.
  - destruct out as [r|]; [|now left]. simpl. intros H. right. exists r.
    split; [reflexivity|]. destruct (ok r); [now right | now left].
  - intros [->|[r [-> [H|H]]]]; simpl; [reflexivity | now rewrite H |].
    now destruct (ok r).
Qed.

Lemma truthy_is_Some (item : option string) :
  JS.truthy item = true -> exists s, item = Some s /\ s <> "".
Proof.
  destruct item as [s|]; [|discriminate]. simpl. intros H. exists s.
  split; [reflexivity|]. intros ->. discriminate.
Qed.

Lemma strict_eq_Some (item : option string) (lit : string) :
  JS.strict_eq item lit = true -> item = Some lit.
Proof.
  destruct item as [s|]; [|discriminate]. simpl.
  intros H. apply String.eqb_eq in H. now subst.
Qed.

Lemma session_check_present (ls : gmap string string) :
  session_check ls = true ->
  is_Some (ls !! "user") /\ ls !! "isAuthenticated" = Some "true".
Proof.
  unfold session_check. intros H. apply andb_prop in H as [Hu Ha]. split.
  - destruct (truthy_is_Some _ Hu) as [s [-> _]]. now exists s.
  - now apply strict_eq_Some.
Qed.

Lemma new_exchanges_app (w w' : World) (l : list (Request * FetchOutcome)) :
  network w' = network w ++ l -> new_exchanges w w' = l.
Proof.
  intros H. unfold new_exchanges. rewrite H. apply drop_app_length.
Qed.

(** C3.  When the store holds neither the session flag together with a
    user nor a token, [checkAuth] issues no [fetch] at all (the log of
    exchanges is the one it started with) and resolves, normally, to
    [{ loading: false, authenticated: false, user: null }]. *)
Theorem no_credentials_short_circuit (w : World) :
  ~ (is_Some (localStorage w !! "user") /\
     localStorage w !! "isAuthenticated" = Some "true") ->
  localStorage w !! "token" = None ->
  checkAuth w
    = (Normal tt, mkWorld (localStorage w) (network w) Unauthenticated (commits w))
  /\ new_exchanges w (snd (checkAuth w)) = [].
Proof.
  intros Hflag Htok.
  assert (Hs : session_check (localStorage w) = false).
  { destruct (session_check (localStorage w)) eqn:E; [|reflexivity].
    exfalso. now apply Hflag, session_check_present. }
  assert (Hrun : checkAuth w
    = (Normal tt, mkWorld (localStorage w) (network w) Unauthenticated (commits w))).
  { rewrite checkAuth_run. cbv zeta. rewrite Hs, Htok. simpl.
    now rewrite !app_nil_r. }
  split; [exact Hrun|].
  rewrite Hrun. simpl. apply new_exchanges_app. simpl. now rewrite app_nil_r.
Qed.

Lemma checkAuth_network (w : World) :
  network (snd (checkAuth w))
    = network w ++ new_exchanges w (snd (checkAuth w)).
Proof.
  assert (H : exists l, network (snd (checkAuth w)) = network w ++ l).
  { rewrite checkAuth_run. cbv zeta.
    destruct (if session_check (localStorage w) then _ else None); simpl; eauto. }
  destruct H as [l H]. now rewrite (new_exchanges_app _ _ _ H).
Qed.

(** The exchanges of a run, spelled out. *)
Lemma checkAuth_new_exchanges (w : World) :
  let ls := localStorage w in
  let c := cookie_request (ls !! "token") in
  let t := token_request (default "" (ls !! "token")) in
  let first := if session_check ls then [(c, backend (network w) c)] else [] in
  new_exchanges w (snd (checkAuth w))
  = first ++
    (match (if session_check ls then verified (backend (network w) c) else None) with
     | Some _ => []
     | None =>
         if JS.truthy (ls !! "token")
         then [(t, backend (network w ++ first) t)]
         else []
     end).
Proof.
  cbv zeta. apply new_exchanges_app. rewrite checkAuth_run. cbv zeta.
  destruct (if session_check (localStorage w) then _ else None);
    simpl; [now rewrite app_nil_r | reflexivity].
Qed.

Lemma checkAuth_order (w : World) :
  let ls := localStorage w in
  let c := cookie_request (ls !! "token") in
  let t := token_request (default "" (ls !! "token")) in
  let new := new_exchanges w (snd (checkAuth w)) in
  network (snd (checkAuth w)) = network w ++ new
  /\ in_order c t new
  /\ length new <= 2
  /\ (credentials c = Some "include" /\ credentials t = None)
  /\ (In c (map fst new) <-> session_check ls = true)
  /\ (In t (map fst new) ->
        exists tok, ls !! "token" = Some tok /\ tok <> "" /\
                    headers t = [("Authorization", "Bearer " +:+ tok)])
  /\ (forall pre req out post,
        new = pre ++ (req, out) :: post -> out = backend (network w ++ pre) req)
  /\ (forall out u, In (c, out) new -> verified out = Some u -> new = [(c, out)]).
Proof.
  intros ls c t new.
  split; [apply checkAuth_network|].
  assert (Hct : c <> t) by (unfold c, t; discriminate).
  assert (Hnew : new =
    (if session_check ls then [(c, backend (network w) c)] else []) ++
    (match (if session_check ls then verified (backend (network w) c) else None) with
     | Some _ => []
     | None =>
         if JS.truthy (ls !! "token")
         then [(t, backend (network w ++
                              (if session_check ls
                               then [(c, backend (network w) c)] else [])) t)]
         else []
     end)).
  { unfold new. apply new_exchanges_app. rewrite checkAuth_run. cbv zeta.
    fold ls. fold c. fold t.
    destruct (if session_check ls then verified (backend (network w) c) else None);
      simpl; [now rewrite app_nil_r | reflexivity]. }
  clearbody new. subst new.
  assert (Htok : JS.truthy (ls !! "token") = true ->
                 exists tok, ls !! "token" = Some tok /\ tok <> "" /\
                   headers t = [("Authorization", "Bearer " +:+ tok)]).
  { intros Ht. destruct (truthy_is_Some _ Ht) as [tok [E Hne]].
    exists tok. unfold t. rewrite E. auto. }
  assert (Hseq1 : forall (x : Request * FetchOutcome) pre req out post,
            fst x = c -> snd x = backend (network w) c ->
            [x] = pre ++ (req, out) :: post -> out = backend (network w ++ pre) req).
  { intros [r o] pre req out post Hr Ho E. simpl in Hr, Ho.
    destruct pre as [|y [|z pre]]; try discriminate E.
    injection E as <- <- _. subst. now rewrite app_nil_r. }
  destruct (session_check ls) eqn:Hs;
    [destruct (verified (backend (network w) c)) as [u|] eqn:Hv;
       [|destruct (JS.truthy (ls !! "token")) eqn:Ht]
    |destruct (JS.truthy (ls !! "token")) eqn:Ht]; simpl.
  - (* cookie-based attempt verifies *)
    split; [constructor|]. split; [lia|]. split; [auto|].
    split; [split; auto|].
    split; [intros [E|[]]; now elim Hct|].
    split; [intros pre req out post; now apply Hseq1|].
    intros out v [E|[]] _. now injection E as <-.
  - (* cookie-based attempt fails, token stored *)
    split; [now constructor|]. split; [lia|]. split; [auto|].
    split; [split; auto|].
    split; [intros _; now apply Htok|].
    split.
    + intros pre req out post E.
      destruct pre as [|x [|y [|z pre]]]; try discriminate E.
      * injection E as <- <- _. now rewrite app_nil_r.
      * injection E as <- <- <- _. reflexivity.
    + intros out v [E|[E|[]]] Hv'.
      * injection E as <-. congruence.
      * injection E as E _. now elim Hct.
  - (* cookie-based attempt fails, no token *)
    split; [constructor|]. split; [lia|]. split; [auto|].
    split; [split; auto|].
    split; [intros [E|[]]; now elim Hct|].
    split; [intros pre req out post; now apply Hseq1|].
    intros out v [E|[]] Hv'. injection E as <-. congruence.
  - (* no cookie-based attempt, token stored *)
    split; [constructor|]. split; [lia|]. split; [auto|].
    split; [split; [intros [E|[]]; now elim Hct | discriminate]|].
    split; [intros _; now apply Htok|].
    split.
    + intros pre req out post E.
      destruct pre as [|x [|y pre]]; try discriminate E.
      injection E as <- <- _. now rewrite !app_nil_r.
    + intros out v [E|[]] _. injection E as E _. now elim Hct.
  - (* nothing stored *)
    split; [constructor|]. split; [lia|]. split; [auto|].
    split; [split; [intros [] | discriminate]|].
    split; [intros []|].
    split; [intros pre req out post E; destruct pre; discriminate E|].
    intros out v [].
Qed.

(** C4.  For every store and every backend, the exchanges of one run of
    [checkAuth] come in the fixed order.  The cookie-based request (the one
    with [credentials: "include"]) is made exactly when the check of the
    stored flag and user passes, and it is the first exchange.  The token
    request carries no [credentials] option and the stored token as bearer;
    it is made exactly when a non-empty token is stored and no cookie-based
    attempt verified a user (none was made, or the one made failed), and it
    comes last.  Every outcome is the answer of the backend to a log that
    already holds the outcome of the request before it, so the two are
    never in flight together.  A cookie-based attempt that verifies a user
    is the only exchange, and no run makes more than two.  The last
    conjunct spells the exchanges out. *)
Theorem verification_order (w : World) :
  let ls := localStorage w in
  let c := cookie_request (ls !! "token") in
  let t := token_request (default "" (ls !! "token")) in
  let new := new_exchanges w (snd (checkAuth w)) in
  let first := if session_check ls then [(c, backend (network w) c)] else [] in
  network (snd (checkAuth w)) = network w ++ new
  /\ in_order c t new
  /\ length new <= 2
  /\ (credentials c = Some "include" /\ credentials t = None)
  /\ (In c (map fst new) <-> session_check ls = true)
  /\ (In t (map fst new) ->
        exists tok, ls !! "token" = Some tok /\ tok <> "" /\
                    headers t = [("Authorization", "Bearer " +:+ tok)])
  /\ (forall pre req out post,
        new = pre ++ (req, out) :: post -> out = backend (network w ++ pre) req)
  /\ (forall out u, In (c, out) new -> verified out = Some u -> new = [(c, out)])
  /\ (In t (map fst new) <->
      JS.truthy (ls !! "token") = true
      /\ (session_check ls = false \/ verified (backend (network w) c) = None))
  /\ new = first ++
           (match (if session_check ls
                   then verified (backend (network w) c) else None) with
            | Some _ => []
            | None =>
                if JS.truthy (ls !! "token")
                then [(t, backend (network w ++ first) t)]
                else []
            end).
Proof.
  intros ls c t new first.
  destruct (checkAuth_order w) as (H1 & H2 & H3 & H4 & H5 & H6 & H7 & H8).
  do 8 (split; [assumption|]).
  assert (Hct : c <> t) by (unfold c, t; discriminate).
  pose proof (checkAuth_new_exchanges w) as Hnew. cbv zeta in Hnew.
  fold ls c t first new in Hnew.
  split; [|exact Hnew].
  rewrite Hnew. unfold first.
  destruct (session_check ls);
    [destruct (verified (backend (network w) c)) as [u|]|];
    try destruct (JS.truthy (ls !! "token")); simpl.
  all: split;
    [ intros H; repeat (destruct H as [H|H]; [try (now elim Hct)|]);
      try (destruct H); auto
    | intros [Ht [Hs|Hv]]; try discriminate; auto ].
Qed.


Lemma checkAuth_normal (w : World) : fst (checkAuth w) = Normal tt.
Proof. now rewrite checkAuth_run. Qed.

Lemma checkAuth_frame (w : World) :
  localStorage (snd (checkAuth w)) = localStorage w
  /\ commits (snd (checkAuth w)) = commits w.
Proof.
  rewrite checkAuth_run. cbv zeta.
  destruct (if session_check (localStorage w) then _ else None); now simpl.
Qed.

Lemma checkAuth_resolved (w : World) :
  loading (authState (snd (checkAuth w))) = false.
Proof.
  rewrite checkAuth_run. cbv zeta.
  destruct (if session_check (localStorage w) then _ else None); simpl;
    [reflexivity|].
  now destruct (if JS.truthy (localStorage w !! "token") then _ else None).
Qed.

(** The state a run ends in, read off the outcomes of its exchanges. *)
Lemma checkAuth_state (w : World) :
  let w' := snd (checkAuth w) in
  (forall req out u, In (req, out) (new_exchanges w w') ->
                     verified out = Some u -> authState w' = Authenticated u)
  /\ (Forall (fun x => verified (snd x) = None) (new_exchanges w w') ->
      authState w' = Unauthenticated).
Proof.
  cbv zeta. unfold new_exchanges. rewrite checkAuth_run. cbv zeta.
  set (c := cookie_request (localStorage w !! "token")).
  set (t := token_request (default "" (localStorage w !! "token"))).
  destruct (session_check (localStorage w));
    [destruct (verified (backend (network w) c)) as [u|] eqn:Hv|];
    simpl; rewrite drop_app_length.
  - split.
    + intros req out v [E|[]] Hv'. injection E as <- <-. congruence.
    + intros H. apply Forall_inv in H. simpl in H. congruence.
  - destruct (JS.truthy (localStorage w !! "token")); simpl.
    + destruct (verified (backend _ t)) as [u|] eqn:Hv2; split.
      * intros req out v [E|[E|[]]] Hv'; injection E as <- <-; congruence.
      * intros H. apply Forall_inv_tail, Forall_inv in H. simpl in H. congruence.
      * intros req out v [E|[E|[]]] Hv'; injection E as <- <-; congruence.
      * reflexivity.
    + split; [|reflexivity].
      intros req out v [E|[]] Hv'. injection E as <- <-. congruence.
  - destruct (JS.truthy (localStorage w !! "token")); simpl.
    + destruct (verified (backend _ t)) as [u|] eqn:Hv2; split.
      * intros req out v [E|[]] Hv'. injection E as <- <-. congruence.
      * intros H. apply Forall_inv in H. simpl in H. congruence.
      * intros req out v [E|[]] Hv'. injection E as <- <-. congruence.
      * reflexivity.
    + split; [intros req out v []|reflexivity].
Qed.

Lemma ProtectedRoute_total (adminOnly : bool) (children : Element) (s : AuthState) :
  exists v, ProtectedRoute adminOnly children s = Normal v.
Proof.
  destruct (loading s) eqn:Hl.
  - rewrite ProtectedRoute_loading; eauto.
  - destruct (authenticated s) eqn:Ha.
    + destruct (ProtectedRoute_authenticated children adminOnly s Hl Ha)
        as [b [_ ->]]. eauto.
    + rewrite ProtectedRoute_unauthenticated; eauto.
Qed.

Lemma render_run (adminOnly : bool) (children : Element) (w : World) (v : View) :
  ProtectedRoute adminOnly children (authState w) = Normal v ->
  render adminOnly children w
    = (Normal tt, mkWorld (localStorage w) (network w) (authState w) (commits w ++ [v])).
Proof.
  intros H. unfold render, bind, lift, commit. now rewrite H.
Qed.

(** A location change: the render with the state at hand is committed, the
    effect runs [checkAuth], and the state it set is rendered. *)
Lemma location_change_run (adminOnly : bool) (children : Element) (w : World) :
  exists v0 v,
    ProtectedRoute adminOnly children (authState w) = Normal v0 /\
    let w1 := mkWorld (localStorage w) (network w) (authState w) (commits w ++ [v0]) in
    let w2 := snd (checkAuth w1) in
    ProtectedRoute adminOnly children (authState w2) = Normal v /\
    location_change adminOnly children w
      = (Normal tt,
         mkWorld (localStorage w) (network w2) (authState w2) (commits w ++ [v0; v])).
Proof.
  destruct (ProtectedRoute_total adminOnly children (authState w)) as [v0 H0].
  set (w1 := mkWorld (localStorage w) (network w) (authState w) (commits w ++ [v0])).
  destruct (ProtectedRoute_total adminOnly children (authState (snd (checkAuth w1))))
    as [v H].
  exists v0, v. split; [exact H0|]. cbv zeta. fold w1. split; [exact H|].
  unfold_location_change.
  rewrite (render_run _ _ _ _ H0). fold w1.
  unfold bind at 1. unfold_effect.
  rewrite (render_run _ _ _ _ H).
  destruct (checkAuth_frame w1) as [-> ->]. simpl.
  now rewrite <- app_assoc.
Qed.

Lemma mount_run (adminOnly : bool) (children : Element) (w : World) :
  exists v,
    let w1 := mkWorld (localStorage w) (network w) initialAuthState
                      (commits w ++ [VSpinner]) in
    let w2 := snd (checkAuth w1) in
    ProtectedRoute adminOnly children (authState w2) = Normal v /\
    mount adminOnly children w
      = (Normal tt,
         mkWorld (localStorage w) (network w2) (authState w2)
                 (commits w ++ [VSpinner; v])).
Proof.
  set (w0 := mkWorld (localStorage w) (network w) initialAuthState (commits w)).
  destruct (location_change_run adminOnly children w0) as [v0 [v [H0 H]]].
  cbv zeta in H. simpl in H0. injection H0 as <-. simpl in H.
  exists v. cbv zeta. split; [apply H|].
  unfold_mount. fold w0.
  apply H.
Qed.

Lemma mount_new_exchanges (adminOnly : bool) (children : Element) (w : World) :
  let w1 := mkWorld (localStorage w) (network w) initialAuthState
                    (commits w ++ [VSpinner]) in
  new_exchanges w (snd (mount adminOnly children w))
    = new_exchanges w1 (snd (checkAuth w1))
  /\ authState (snd (mount adminOnly children w)) = authState (snd (checkAuth w1))
  /\ localStorage (snd (mount adminOnly children w)) = localStorage w.
Proof.
  cbv zeta. destruct (mount_run adminOnly children w) as [v [_ ->]].
  repeat split.
Qed.

(** C7.  Whatever the backend does, [checkAuth] completes normally: a
    rejected [fetch], a rejected [json()] and a non-success status are all
    absorbed.  When every attempt of the run failed in one of these ways the
    guard resolves to the unauthenticated state; and mounting a guard never
    throws, its screen going from the placeholder to the redirect to
    [/login] in that case. *)
Theorem verification_fails_soft (adminOnly : bool) (children : Element) (w : World) :
  fst (checkAuth w) = Normal tt
  /\ (Forall (fun x => verified (snd x) = None) (new_exchanges w (snd (checkAuth w))) ->
      authState (snd (checkAuth w)) = Unauthenticated)
  /\ fst (mount adminOnly children w) = Normal tt
  /\ (Forall (fun x => verified (snd x) = None)
             (new_exchanges w (snd (mount adminOnly children w))) ->
      authState (snd (mount adminOnly children w)) = Unauthenticated
      /\ new_commits w (snd (mount adminOnly children w))
         = [VSpinner; VNavigate "/login" true]).
Proof.
  split; [apply checkAuth_normal|].
  split; [apply (checkAuth_state w)|].
  destruct (mount_new_exchanges adminOnly children w) as [Hn [Hs _]].
  cbv zeta in Hn, Hs. rewrite Hn, Hs.
  destruct (mount_run adminOnly children w) as [v [Hv Hm]]. cbv zeta in Hv, Hm.
  rewrite Hm. simpl. split; [reflexivity|].
  intros Hfail. apply checkAuth_state in Hfail.
  split; [exact Hfail|].
  rewrite Hfail in Hv. simpl in Hv. injection Hv as <-.
  unfold new_commits. simpl. apply drop_app_length.
Qed.

(** C8.  A run of [checkAuth] leaves the session store as it found it,
    whatever the backend answers: no key is written, removed or changed,
    in particular not [user], [isAuthenticated] and [token] (so the store
    is re-written in no case at all).  When an attempt of the run verifies
    a user, the guard ends in [{ loading: false, authenticated: true,
    user }] with that user.  Mounting a guard and a location change leave
    the store alone as well. *)
Theorem store_not_rewritten (adminOnly : bool) (children : Element) (w : World) :
  localStorage (snd (checkAuth w)) = localStorage w
  /\ (forall req out u,
        In (req, out) (new_exchanges w (snd (checkAuth w))) ->
        verified out = Some u ->
        authState (snd (checkAuth w)) = Authenticated u)
  /\ localStorage (snd (mount adminOnly children w)) = localStorage w
  /\ localStorage (snd (location_change adminOnly children w)) = localStorage w.
Proof.
  split; [apply checkAuth_frame|].
  split; [apply (checkAuth_state w)|].
  split; [apply mount_new_exchanges|].
  destruct (location_change_run adminOnly children w) as [v0 [v [_ H]]].
  cbv zeta in H. destruct H as [_ ->]. reflexivity.
Qed.

(** C6.  Only one route of the table matches [/simulators], and its
    element is [<Navigate to="/dashboard" replace />] itself, not a guard.
    Opening the application there commits that redirect and nothing else:
    whatever the store holds, whatever the state of any guard and whatever
    the backend would answer, no request is made and no state is set. *)
Theorem simulators_always_redirects (w : World) :
  matches "/simulators" = [("/simulators", ENavigate "/dashboard" true)]
  /\ Routes "/simulators" = Some (ENavigate "/dashboard" true)
  /\ guarded (ENavigate "/dashboard" true) = false
  /\ (forall s, render_element (ENavigate "/dashboard" true) s
                = Normal (VNavigate "/dashboard" true))
  /\ visit "/simulators" w
     = (Normal tt,
        mkWorld (localStorage w) (network w) (authState w)
                (commits w ++ [VNavigate "/dashboard" true])).
Proof.
  repeat split.
Qed.

(** C5 (as the code has it).  A guard mounts in the loading state: the
    first view it commits is the placeholder, and the view that follows
    renders the state [checkAuth] resolved to, with [loading = false].  A
    location change under a mounted guard runs [checkAuth] again on the
    log and store at hand, but does not go back to loading: what is
    committed first is the render of the state the guard already had, then
    the render of the newly resolved state.  While [loading] holds the
    guard renders the placeholder and decides nothing; once it does not,
    the render is one of redirect to [/login] (not authenticated),
    redirect to [/dashboard] (authenticated and the admin check fails) or
    the children (otherwise). *)
Theorem guard_life_cycle
    (adminOnly : bool) (children : Element) (w : World) (s : AuthState) :
  (exists v,
     new_commits w (snd (mount adminOnly children w)) = [VSpinner; v]
     /\ ProtectedRoute adminOnly children
          (authState (snd (mount adminOnly children w))) = Normal v
     /\ loading (authState (snd (mount adminOnly children w))) = false)
  /\ (exists v0 v w1,
       ProtectedRoute adminOnly children (authState w) = Normal v0
       /\ new_commits w (snd (location_change adminOnly children w)) = [v0; v]
       /\ localStorage w1 = localStorage w /\ network w1 = network w
       /\ authState w1 = authState w
       /\ network (snd (location_change adminOnly children w))
          = network (snd (checkAuth w1))
       /\ authState (snd (location_change adminOnly children w))
          = authState (snd (checkAuth w1))
       /\ ProtectedRoute adminOnly children
            (authState (snd (location_change adminOnly children w))) = Normal v)
  /\ (loading s = true ->
      ProtectedRoute adminOnly children s = Normal VSpinner
      /\ decision VSpinner = Placeholder)
  /\ (loading s = false ->
      exists v b,
        ProtectedRoute adminOnly children s = Normal v
        /\ not_admin adminOnly s = Normal b
        /\ decision v = if negb (authenticated s) then RedirectToLogin
                        else if b then RedirectToDashboard
                        else RenderChildren).
Proof.
  split; [|split; [|split]].
  - destruct (mount_run adminOnly children w) as [v [Hv Hm]].
    cbv zeta in Hv, Hm. exists v. rewrite Hm. simpl.
    split; [unfold new_commits; simpl; apply drop_app_length|].
    split; [exact Hv | apply checkAuth_resolved].
  - destruct (location_change_run adminOnly children w) as [v0 [v [H0 H]]].
    cbv zeta in H. destruct H as [Hv Hl].
    exists v0, v, (mkWorld (localStorage w) (network w) (authState w) (commits w ++ [v0])).
    rewrite Hl. simpl.
    split; [exact H0|].
    split; [unfold new_commits; simpl; apply drop_app_length|].
    repeat split. exact Hv.
  - intros Hl. split; [now apply ProtectedRoute_loading | reflexivity].
  - intros Hl. destruct (not_admin_normal adminOnly s) as [b Hb].
    destruct (authenticated s) eqn:Ha.
    + destruct (ProtectedRoute_authenticated children adminOnly s Hl Ha)
        as [b' [Hb' ->]].
      rewrite Hb in Hb'. injection Hb' as <-.
      eexists. exists b. split; [reflexivity|]. split; [exact Hb|].
      now destruct b.
    + exists (VNavigate "/login" true), b.
      split; [now apply ProtectedRoute_unauthenticated|]. now split.
Qed.

End Verification.

Lemma no_credentials_short_circuit_witness :
  ~ (is_Some (localStorage (fresh empty_store) !! "user") /\
     localStorage (fresh empty_store) !! "isAuthenticated" = Some "true") /\
  localStorage (fresh empty_store) !! "token" = None /\
  checkAuth None (backend_200 administrator) (fresh empty_store)
    = (Normal tt, mkWorld empty_store [] Unauthenticated []).
Proof.
  assert (Hflag : ~ (is_Some (localStorage (fresh empty_store) !! "user") /\
     localStorage (fresh empty_store) !! "isAuthenticated" = Some "true")).
  { intros [[s Hs] _]. discriminate Hs. }
  split; [exact Hflag | split; [reflexivity|]].
  apply (no_credentials_short_circuit None (backend_200 administrator)
           (fresh empty_store) Hflag eq_refl).
Defined.

Lemma verification_order_witness :
  let w := fresh full_store in
  let new := new_exchanges w (snd (checkAuth None (backend_bearer_only student) w)) in
  new = [ (cookie_request None (Some "t0k3n"), Resolved (mkResponse false None));
          (token_request None "t0k3n", Resolved (mkResponse true (Some student))) ]
  /\ in_order (cookie_request None (Some "t0k3n")) (token_request None "t0k3n") new
  /\ length new <= 2.
Proof.
  cbv zeta. split; [vm_compute; reflexivity|].
  pose proof (verification_order None (backend_bearer_only student) (fresh full_store))
    as H.
  cbv zeta in H. destruct H as (_ & Horder & Hlen & _).
  split; [exact Horder | exact Hlen].
Defined.

Lemma verification_fails_soft_witness :
  Forall (fun x => verified (snd x) = None)
         (new_exchanges (fresh full_store)
            (snd (mount None backend_down false (EPage Dashboard) (fresh full_store))))
  /\ new_commits (fresh full_store)
       (snd (mount None backend_down false (EPage Dashboard) (fresh full_store)))
     = [VSpinner; VNavigate "/login" true].
Proof.
  assert (H : Forall (fun x => verified (snd x) = None)
                (new_exchanges (fresh full_store)
                   (snd (mount None backend_down false (EPage Dashboard)
                           (fresh full_store))))).
  { vm_compute. repeat constructor. }
  split; [exact H|].
  destruct (verification_fails_soft None backend_down false (EPage Dashboard)
              (fresh full_store)) as (_ & _ & _ & Hm).
  apply Hm, H.
Defined.

(** The backend returns a record that the store does not hold; the store
    stays as it was. *)
Lemma store_not_rewritten_witness :
  let w := fresh full_store in
  let w' := snd (checkAuth None (backend_200 administrator) w) in
  In (cookie_request None (Some "t0k3n"),
      Resolved (mkResponse true (Some administrator))) (new_exchanges w w')
  /\ authState w' = Authenticated administrator
  /\ localStorage w' = full_store
  /\ full_store !! "user" = Some "{}".
Proof.
  cbv zeta.
  assert (H : In (cookie_request None (Some "t0k3n"),
                  Resolved (mkResponse true (Some administrator)))
                 (new_exchanges (fresh full_store)
                    (snd (checkAuth None (backend_200 administrator)
                            (fresh full_store))))).
  { vm_compute. left. reflexivity. }
  destruct (store_not_rewritten None (backend_200 administrator) false (EPage Dashboard)
              (fresh full_store)) as (Hls & Hst & _).
  split; [exact H|]. split; [|split; [exact Hls | reflexivity]].
  apply (Hst _ _ administrator H). reflexivity.
Defined.

Lemma guard_life_cycle_witness :
  loading (Authenticated student) = false
  /\ exists v, ProtectedRoute true (EPage AdminUsers) (Authenticated student) = Normal v
             /\ decision v = RedirectToDashboard.
Proof.
  split; [reflexivity|].
  destruct (guard_life_cycle None backend_down true (EPage AdminUsers)
              (fresh empty_store) (Authenticated student)) as (_ & _ & _ & H).
  destruct (H eq_refl) as (v & b & Hv & Hb & Hd).
  exists v. split; [exact Hv|].
  rewrite Hd. simpl in Hb. injection Hb as <-. reflexivity.
Defined.

(** C5 as stated fails.  A guard mounted on [/exam/:simulatorId] verifies a
    student; the location then changes under it (another simulator, same
    route, same instance).  [checkAuth] runs again, one more exchange is
    logged, yet no placeholder is committed: the guard keeps rendering its
    children with the state of the earlier verification. *)
Lemma location_change_skips_loading :
  let backend := backend_200 student in
  let w1 := snd (mount None backend false (EPage Exam) (fresh full_store)) in
  let w2 := snd (location_change None backend false (EPage Exam) w1) in
  Routes "/exam/a" = Some (EProtectedRoute false (EPage Exam))
  /\ Routes "/exam/b" = Some (EProtectedRoute false (EPage Exam))
  /\ map decision (commits w1) = [Placeholder; RenderChildren]
  /\ length (new_exchanges w1 w2) = 1
  /\ map decision (new_commits w1 w2) = [RenderChildren; RenderChildren]
  /\ ~ (exists rest, new_commits w1 w2 = VSpinner :: rest).
Proof.
  cbv zeta. repeat split; try (vm_compute; reflexivity).
  intros [rest H]. vm_compute in H. discriminate H.
Qed.

(** * Further properties of the code *)

(** ** More on the verification *)

Section MoreVerification.

Variable REACT_APP_BACKEND_URL : option string.
Variable backend : Backend.

Local Abbreviation checkAuth := (checkAuth REACT_APP_BACKEND_URL backend).
Local Abbreviation cookie_request := (cookie_request REACT_APP_BACKEND_URL).
Local Abbreviation token_request := (token_request REACT_APP_BACKEND_URL).
Local Abbreviation mount := (mount REACT_APP_BACKEND_URL backend).
Local Abbreviation location_change := (location_change REACT_APP_BACKEND_URL backend).
Local Abbreviation API := (API REACT_APP_BACKEND_URL).
Local Abbreviation BACKEND_URL := (BACKEND_URL REACT_APP_BACKEND_URL).

(** The exchanges of a run and the state it ends in, in closed form. *)
Lemma checkAuth_exchanges (w : World) :
  let ls := localStorage w in
  let c := cookie_request (ls !! "token") in
  let t := token_request (default "" (ls !! "token")) in
  let o1 := backend (network w) c in
  let first := if session_check ls then [(c, o1)] else [] in
  let o2 := backend (network w ++ first) t in
  let second := if JS.truthy (ls !! "token") then [(t, o2)] else [] in
  let cookie_user := if session_check ls then verified o1 else None in
  let token_user := if JS.truthy (ls !! "token") then verified o2 else None in
  new_exchanges w (snd (checkAuth w))
    = first ++ (match cookie_user with Some _ => [] | None => second end)
  /\ authState (snd (checkAuth w))
     = match cookie_user with
       | Some u => Authenticated u
       | None => match token_user with
                 | Some u => Authenticated u
                 | None => Unauthenticated
                 end
       end.
Proof.
  cbv zeta. split.
  - apply new_exchanges_app. rewrite checkAuth_run. cbv zeta.
    destruct (if session_check (localStorage w) then _ else None); simpl;
      [now rewrite app_nil_r | reflexivity].
  - rewrite checkAuth_run. cbv zeta.
    destruct (if session_check (localStorage w) then _ else None); reflexivity.
Qed.

(** X1.  A run makes no request exactly when the store passes neither
    test of the code: the pair of a non-empty [user] with
    [isAuthenticated] equal to ["true"], and a non-empty [token].  A key
    stored with the empty string counts as missing. *)
Theorem no_request_iff (w : World) :
  new_exchanges w (snd (checkAuth w)) = []
  <-> session_check (localStorage w) = false
      /\ JS.truthy (localStorage w !! "token") = false.
Proof.
  destruct (checkAuth_exchanges w) as [-> _].
  destruct (session_check (localStorage w)); simpl.
  - split; [discriminate | intros [H _]; discriminate H].
  - destruct (JS.truthy (localStorage w !! "token")); simpl.
    + split; [discriminate | intros [_ H]; discriminate H].
    + split; auto.
Qed.

(** X2.  A run makes two requests exactly when the session test passes,
    the cookie-based attempt verifies nobody and a non-empty token is
    stored; in every other case it makes one or none, never more than
    two. *)
Theorem two_requests_iff (w : World) :
  let c := cookie_request (localStorage w !! "token") in
  let n := length (new_exchanges w (snd (checkAuth w))) in
  (n = 2
   <-> session_check (localStorage w) = true
       /\ verified (backend (network w) c) = None
       /\ JS.truthy (localStorage w !! "token") = true)
  /\ (n <> 2 -> n = 0 \/ n = 1)
  /\ n <= 2.
Proof.
  cbv zeta. destruct (checkAuth_exchanges w) as [-> _].
  destruct (session_check (localStorage w)); simpl.
  - destruct (verified (backend (network w) _)) as [u|]; simpl.
    + split; [|split; [auto | lia]].
      split; [discriminate | intros (_ & H & _); discriminate H].
    + destruct (JS.truthy (localStorage w !! "token")); simpl.
      * split; [|split; [intros H; now elim H | lia]]. split; auto.
      * split; [|split; [auto | lia]].
        split; [discriminate | intros (_ & _ & H); discriminate H].
  - destruct (JS.truthy (localStorage w !! "token")); simpl;
      (split; [|split; [auto | lia]];
       split; [discriminate | intros (H & _); discriminate H]).
Qed.

Lemma or_else_truthy (item : option string) :
  JS.truthy item = true -> JS.or_else item "" = default "" item.
Proof. unfold JS.or_else. now intros ->. Qed.

Lemma BACKEND_URL_not_empty : BACKEND_URL <> "".
Proof.
  unfold_requests. unfold JS.or_else.
  destruct (JS.truthy REACT_APP_BACKEND_URL) eqn:E; [|discriminate].
  destruct (truthy_is_Some _ E) as [s [-> Hs]]. exact Hs.
Qed.

(** X3.  Every request of a run goes to [API + "/auth/me"], where the
    backend URL is never empty (an empty or missing environment variable
    gives the default), and carries one header, [Authorization], made of
    [Bearer ] and the stored token, or nothing after [Bearer ] when no
    token is stored.  Nothing else of the store is sent. *)
Theorem request_shape (w : World) (req : Request) (out : FetchOutcome) :
  In (req, out) (new_exchanges w (snd (checkAuth w))) ->
  url req = (BACKEND_URL +:+ "/api") +:+ "/auth/me"
  /\ BACKEND_URL <> ""
  /\ headers req
     = [("Authorization", "Bearer " +:+ JS.or_else (localStorage w !! "token") "")]
  /\ (credentials req = Some "include" \/ credentials req = None).
Proof.
  destruct (checkAuth_exchanges w) as [-> _]. intros Hin.
  split; [|split; [apply BACKEND_URL_not_empty|]].
  - apply in_app_or in Hin as [Hin|Hin].
    + destruct (session_check (localStorage w)); [|destruct Hin].
      destruct Hin as [E|[]]. injection E as <- _. reflexivity.
    + destruct (if session_check (localStorage w) then _ else None);
        [destruct Hin|].
      destruct (JS.truthy (localStorage w !! "token")); [|destruct Hin].
      destruct Hin as [E|[]]. injection E as <- _. reflexivity.
  - apply in_app_or in Hin as [Hin|Hin].
    + destruct (session_check (localStorage w)); [|destruct Hin].
      destruct Hin as [E|[]]. injection E as <- _. auto.
    + destruct (if session_check (localStorage w) then _ else None);
        [destruct Hin|].
      destruct (JS.truthy (localStorage w !! "token")) eqn:Ht; [|destruct Hin].
      destruct Hin as [E|[]]. injection E as <- _.
      rewrite (or_else_truthy _ Ht). auto.
Qed.

Lemma checkAuth_state_last (w : World) :
  authState (snd (checkAuth w))
  = match last (new_exchanges w (snd (checkAuth w))) with
    | Some (_, out) =>
        match verified out with
        | Some u => Authenticated u
        | None => Unauthenticated
        end
    | None => Unauthenticated
    end.
Proof.
  destruct (checkAuth_exchanges w) as [-> ->].
  destruct (session_check (localStorage w)); simpl.
  - destruct (verified (backend (network w) _)) as [u|] eqn:Hv; simpl.
    + now rewrite Hv.
    + destruct (JS.truthy (localStorage w !! "token")); simpl;
        [reflexivity | now rewrite Hv].
  - destruct (JS.truthy (localStorage w !! "token")); reflexivity.
Qed.

(** X4.  The state a run ends in is read off its last exchange alone:
    authenticated with the user that exchange verified, unauthenticated
    when it verified nobody or when there was no exchange. *)
Theorem state_from_last_exchange (w : World) :
  authState (snd (checkAuth w))
  = match last (new_exchanges w (snd (checkAuth w))) with
    | Some (_, out) =>
        match verified out with
        | Some u => Authenticated u
        | None => Unauthenticated
        end
    | None => Unauthenticated
    end.
Proof. apply checkAuth_state_last. Qed.

(** X5.  A run does not look at the state of the guard or at what it has
    rendered: started from two worlds with the same store and the same
    log, it makes the same exchanges and ends in the same state.  A user
    put in the state through [setUser] is therefore replaced by the next
    verification. *)
Theorem checkAuth_forgets_state (w1 w2 : World) :
  localStorage w1 = localStorage w2 -> network w1 = network w2 ->
  network (snd (checkAuth w1)) = network (snd (checkAuth w2))
  /\ authState (snd (checkAuth w1)) = authState (snd (checkAuth w2))
  /\ forall u,
       authState (snd (checkAuth (snd (setAuthState (setUser u) w1))))
       = authState (snd (checkAuth w1)).
Proof.
  intros Hls Hnet. split; [|split].
  - rewrite !checkAuth_run. cbv zeta. rewrite Hls, Hnet.
    destruct (if session_check (localStorage w2) then _ else None); reflexivity.
  - rewrite !checkAuth_run. cbv zeta. rewrite Hls, Hnet.
    destruct (if session_check (localStorage w2) then _ else None); reflexivity.
  - intros u. rewrite !checkAuth_run. cbv zeta. simpl.
    destruct (if session_check (localStorage w1) then _ else None); reflexivity.
Qed.

Lemma strict_neq_string_false (v : JS.value) (lit : string) :
  JS.strict_neq_string v lit = false -> v = JString lit.
Proof.
  destruct v as [| | | |s| |]; simpl; try discriminate.
  intros H. apply negb_false_iff, String.eqb_eq in H. now subst.
Qed.

Lemma not_admin_false_iff (s : AuthState) :
  not_admin true s = Normal false
  <-> JS.optional_member (user s) "role" = Normal (JString "admin").
Proof.
  unfold not_admin.
  destruct (optional_member_total (user s) "role") as [r ->]. split.
  - intros H. injection H as H. now rewrite (strict_neq_string_false _ _ H).
  - intros H. injection H as ->. reflexivity.
Qed.

Lemma ProtectedRoute_children_inv
    (adminOnly : bool) (children : Element) (s : AuthState)
    (value : AuthContextValue) (shown : list Element) :
  ProtectedRoute adminOnly children s = Normal (VAuthProvider value shown) ->
  loading s = false /\ authenticated s = true
  /\ not_admin adminOnly s = Normal false
  /\ value = mkAuthContextValue (user s) setUser
  /\ shown = [children; EFeedbackButton].
Proof.
  unfold ProtectedRoute. destruct (loading s); [discriminate|].
  destruct (authenticated s); [|discriminate]. simpl.
  destruct (not_admin adminOnly s) as [[|]| |]; try discriminate.
  intros H. injection H as <- <-. auto.
Qed.

(** X6.  When the store passes one of the two tests and the backend
    verifies the same user on every request, a guard on a route that is
    not admin-only makes exactly one request and goes from the placeholder
    to its children, handing that user to the context. *)
Theorem accepted_credentials_render_children
    (children : Element) (u : JS.value) (w : World) :
  session_check (localStorage w) = true
    \/ JS.truthy (localStorage w !! "token") = true ->
  (forall h req, verified (backend h req) = Some u) ->
  length (new_exchanges w (snd (mount false children w))) = 1
  /\ authState (snd (mount false children w)) = Authenticated u
  /\ new_commits w (snd (mount false children w))
     = [VSpinner;
        VAuthProvider (mkAuthContextValue u setUser) [children; EFeedbackButton]].
Proof.
  intros Hcred Hok.
  destruct (mount_new_exchanges REACT_APP_BACKEND_URL backend false children w)
    as (Hn & Hs & _).
  cbv zeta in Hn, Hs. rewrite Hn, Hs.
  destruct (mount_run REACT_APP_BACKEND_URL backend false children w) as [v [Hv Hm]].
  cbv zeta in Hv, Hm. rewrite Hm. unfold new_commits. simpl. rewrite drop_app_length.
  set (w1 := mkWorld (localStorage w) (network w) initialAuthState
                     (commits w ++ [VSpinner])) in *.
  destruct (checkAuth_exchanges w1) as [He Ha]. cbv zeta in He, Ha.
  rewrite He, Ha in *. simpl in *. rewrite !Hok in *.
  destruct (session_check (localStorage w)); simpl in *.
  - injection Hv as <-. auto.
  - destruct Hcred as [Hc|Hc]; [discriminate|]. rewrite Hc in *. simpl in *.
    injection Hv as <-. auto.
Qed.

(** X7.  Once the store passes neither test (after a logout, say), the
    next location change under a mounted guard makes no request, leaves
    the guard unauthenticated whatever its state was, and ends on the
    redirect to [/login]; the view committed before that is still the one
    of the state the guard had. *)
Theorem cleared_store_logs_out (adminOnly : bool) (children : Element) (w : World) :
  session_check (localStorage w) = false ->
  JS.truthy (localStorage w !! "token") = false ->
  network (snd (location_change adminOnly children w)) = network w
  /\ authState (snd (location_change adminOnly children w)) = Unauthenticated
  /\ exists v0,
       ProtectedRoute adminOnly children (authState w) = Normal v0
       /\ new_commits w (snd (location_change adminOnly children w))
          = [v0; VNavigate "/login" true].
Proof.
  intros Hs Ht.
  destruct (location_change_run REACT_APP_BACKEND_URL backend adminOnly children w)
    as [v0 [v [H0 H]]].
  cbv zeta in H. destruct H as [Hv ->]. simpl.
  rewrite checkAuth_run in Hv |- *. cbv zeta in Hv |- *. simpl in Hv |- *.
  rewrite Hs, Ht in Hv |- *. simpl in Hv |- *. injection Hv as <-.
  split; [now rewrite app_nil_r|]. split; [reflexivity|].
  exists v0. split; [exact H0|]. unfold new_commits. simpl. apply drop_app_length.
Qed.

(** X8.  A mounting guard puts its children on the screen only after an
    exchange of this very mount verified a user: the last exchange did, the
    user in the context is the one the backend returned (the stored [user]
    string is never used as the user), the children come with the feedback
    button, and on an admin-only route that user has the role ["admin"]. *)
Theorem children_only_after_verification
    (adminOnly : bool) (children : Element) (w : World)
    (value : AuthContextValue) (shown : list Element) :
  In (VAuthProvider value shown) (new_commits w (snd (mount adminOnly children w))) ->
  shown = [children; EFeedbackButton]
  /\ (exists req out,
        last (new_exchanges w (snd (mount adminOnly children w))) = Some (req, out)
        /\ verified out = Some (ctx_user value))
  /\ (adminOnly = true ->
      JS.optional_member (ctx_user value) "role" = Normal (JString "admin")).
Proof.
  destruct (mount_new_exchanges REACT_APP_BACKEND_URL backend adminOnly children w)
    as (Hn & _ & _).
  cbv zeta in Hn. rewrite Hn. clear Hn.
  destruct (mount_run REACT_APP_BACKEND_URL backend adminOnly children w)
    as [v [Hv Hm]].
  cbv zeta in Hv, Hm. rewrite Hm. unfold new_commits at 1. simpl.
  rewrite drop_app_length.
  set (w1 := mkWorld (localStorage w) (network w) initialAuthState
                     (commits w ++ [VSpinner])) in *.
  intros [E|[E|[]]]; [discriminate E|]. subst v.
  apply ProtectedRoute_children_inv in Hv as (_ & Ha & Hna & -> & ->).
  split; [reflexivity|]. simpl. split.
  - rewrite (checkAuth_state_last w1) in Ha |- *.
    destruct (last (new_exchanges w1 (snd (checkAuth w1)))) as [[req out]|];
      [|discriminate Ha].
    exists req, out. split; [reflexivity|].
    destruct (verified out); [reflexivity | discriminate Ha].
  - intros ->. now apply not_admin_false_iff.
Qed.

End MoreVerification.

(** ** More on the render function *)

(** X9.  On an admin-only route, and so under [AdminRoutes], an
    authenticated guard renders its children, among them the admin data
    provider, exactly when the role of the user is the string ["admin"];
    any other role, spelling or type of value leads to the redirect. *)
Theorem admin_children_iff_role_admin (children : Element) (s : AuthState) :
  loading s = false -> authenticated s = true ->
  (JS.optional_member (user s) "role" = Normal (JString "admin")
   <-> render_element (AdminRoutes children) s
       = Normal (VAuthProvider (mkAuthContextValue (user s) setUser)
                               [EAdminDataProvider children; EFeedbackButton]))
  /\ (JS.optional_member (user s) "role" <> Normal (JString "admin")
      <-> render_element (AdminRoutes children) s
          = Normal (VNavigate "/dashboard" true)).
Proof.
  intros Hl Ha. simpl.
  destruct (ProtectedRoute_authenticated (EAdminDataProvider children) true s Hl Ha)
    as [b [Hb ->]].
  destruct b.
  - assert (Hno : JS.optional_member (user s) "role" <> Normal (JString "admin")).
    { intros H. apply not_admin_false_iff in H. congruence. }
    split; split; try discriminate; try easy.
  - apply not_admin_false_iff in Hb.
    split; split; try discriminate; try easy.
Qed.

(** X10.  What a call of [setUser] does to the screen of an authenticated
    guard.  On a route that is not admin-only the next render still shows
    the children, now with the new user in the context, whatever that value
    is.  On an admin-only route it shows them only if the new user has the
    role ["admin"], and otherwise redirects to [/dashboard]. *)
Theorem setUser_then_render (children : Element) (u : JS.value) (w : World) :
  loading (authState w) = false -> authenticated (authState w) = true ->
  let s' := authState (snd (setAuthState (setUser u) w)) in
  ProtectedRoute false children s'
    = Normal (VAuthProvider (mkAuthContextValue u setUser) [children; EFeedbackButton])
  /\ (JS.optional_member u "role" = Normal (JString "admin") ->
      ProtectedRoute true children s'
      = Normal (VAuthProvider (mkAuthContextValue u setUser)
                              [children; EFeedbackButton]))
  /\ (JS.optional_member u "role" <> Normal (JString "admin") ->
      ProtectedRoute true children s' = Normal (VNavigate "/dashboard" true)).
Proof.
  intros Hl Ha. cbv zeta. simpl.
  set (s' := mkAuthState (loading (authState w)) (authenticated (authState w)) u).
  assert (Hl' : loading s' = false) by exact Hl.
  assert (Ha' : authenticated s' = true) by exact Ha.
  split; [|split].
  - destruct (ProtectedRoute_authenticated children false s' Hl' Ha') as [b [Hb ->]].
    injection Hb as <-. reflexivity.
  - intros Hr.
    destruct (ProtectedRoute_authenticated children true s' Hl' Ha') as [b [Hb ->]].
    apply (not_admin_false_iff s') in Hr. rewrite Hr in Hb. now injection Hb as <-.
  - intros Hr.
    destruct (ProtectedRoute_authenticated children true s' Hl' Ha') as [b [Hb ->]].
    destruct b; [reflexivity|]. now apply not_admin_false_iff in Hb.
Qed.

(** ** More on the route table *)

Lemma matches_by_segments (pathname : string) :
  matches pathname
  = List.filter (fun r => match_segments (segments (fst r)) (segments pathname))
                AppRouter.
Proof. reflexivity. Qed.

Lemma Routes_Some_inv (pathname : string) (e : Element) :
  Routes pathname = Some e ->
  exists pattern, In (pattern, e) AppRouter
                  /\ match_segments (segments pattern) (segments pathname) = true.
Proof.
  unfold Routes. destruct (matches pathname) as [|[pat e'] rest] eqn:Hm;
    [discriminate|].
  intros H. injection H as <-. exists pat.
  assert (Hin : In (pat, e') (matches pathname)) by (rewrite Hm; now left).
  rewrite matches_by_segments in Hin.
  apply filter_In in Hin as [Hin Hmatch]. auto.
Qed.

Lemma match_segments_length (pattern path : list string) :
  match_segments pattern path = true -> length pattern = length path.
Proof.
  revert path. induction pattern as [|p ps IH]; intros [|s ss]; simpl;
    try discriminate; [reflexivity|].
  intros H. apply andb_prop in H as [_ H]. now rewrite (IH ss H).
Qed.


(** Brings [In (pattern, e) AppRouter] down to the routes one by one, with
    the segments of each pattern computed. *)
Ltac each_route Hin Hm :=
  unfold AppRouter, AdminRoutes in Hin; simpl in Hin;
  repeat (destruct Hin as [Hin|Hin];
          [injection Hin as <- <-;
           match type of Hm with
           | match_segments (segments ?lit) _ = true =>
               let v := eval vm_compute in (segments lit) in
               change (segments lit) with v in Hm
           end|]);
  [..|destruct Hin].

(** What [plain] lets through and what it keeps out: a trailing slash
    passes; a doubled slash, an upper-case letter, a percent escape and a
    missing leading slash do not. *)
Lemma plain_examples :
  List.map plain ["/"; "/login"; "/login/"; "/exam/unam-2024"; "/admin/users"]
    = [true; true; true; true; true]
  /\ List.map plain ["//login"; "/admin//users"; "/LOGIN"; "/Admin/users";
                     "/%61dmin/users"; "login"; ""]
     = [false; false; false; false; false; false; false].
Proof. split; reflexivity. Qed.

(** X11.  Whatever the pathname, at most one route of the table matches
    it, so the element rendered does not depend on how the router ranks
    routes: either nothing matches and nothing is rendered, or exactly one
    route does and [Routes] gives its element. *)
Theorem one_route_per_pathname (pathname : string) :
  (matches pathname = [] /\ Routes pathname = None)
  \/ exists pattern e,
       matches pathname = [(pattern, e)]
       /\ Routes pathname = Some e
       /\ In (pattern, e) AppRouter
       /\ matchPath pattern pathname = true.
Proof.
  pose proof (routes_never_overlap pathname) as Hlen.
  unfold Routes.
  destruct (matches pathname) as [|[pat e] [|r rest]] eqn:Hm.
  - now left.
  - right. exists pat, e. split; [reflexivity|]. split; [reflexivity|].
    assert (Hin : In (pat, e) (matches pathname)) by (rewrite Hm; now left).
    unfold matches in Hin. apply filter_In in Hin as [Hin Hmatch]. auto.
  - simpl in Hlen. lia.
Qed.



(** X14.  The table has no catch-all and no route deeper than two
    segments: a pathname of three segments or more matches nothing, and
    opening it renders nothing, makes no request and sets no state. *)
Theorem deep_paths_match_nothing
    (env : option string) (backend : Backend) (pathname : string) (w : World) :
  3 <= length (segments pathname) ->
  Routes pathname = None /\ visit env backend pathname w = (Normal tt, w).
Proof.
  intros Hlen.
  assert (Hnone : Routes pathname = None).
  { destruct (Routes pathname) as [e|] eqn:H; [|reflexivity]. exfalso.
    apply Routes_Some_inv in H as [pat [Hin Hm]].
    each_route Hin Hm; apply match_segments_length in Hm; simpl in Hm; lia. }
  split; [exact Hnone|]. unfold visit. now rewrite Hnone.
Qed.

Lemma append_snoc (cur rest : string) (c : ascii) :
  (cur +:+ String c "") +:+ rest = cur +:+ String c rest.
Proof.
  induction cur as [|d cur IH]; [reflexivity|].
  change (String d ((cur +:+ String c "") +:+ rest) = String d (cur +:+ String c rest)).
  now rewrite IH.
Qed.

Lemma split_slash_free (s cur : string) :
  slash_free s = true -> split_slash s cur = [cur +:+ s].
Proof.
  revert cur. induction s as [|c s IH]; intros cur; simpl.
  - intros _. f_equal. induction cur as [|d cur IHc]; [reflexivity|].
    change (String d cur = String d (cur +:+ "")). now rewrite <- IHc.
  - intros H. apply andb_prop in H as [Hc Hs].
    apply negb_true_iff in Hc. rewrite Hc, (IH _ Hs). now rewrite append_snoc.
Qed.

Lemma eqb_empty_false (id : string) : id <> "" -> String.eqb id "" = false.
Proof. intros H. now apply String.eqb_neq. Qed.

(** X15.  The three routes with a parameter take any value for it: for
    every non-empty [id] without a slash, [/exam/id], [/results/id] and
    [/subjects/id] are served by the guard, not admin-only, around the exam,
    the results and the subject practice page. *)
Theorem parameter_routes (id : string) :
  slash_free id = true -> id <> "" ->
  Routes ("/exam/" +:+ id) = Some (EProtectedRoute false (EPage Exam))
  /\ Routes ("/results/" +:+ id) = Some (EProtectedRoute false (EPage Results))
  /\ Routes ("/subjects/" +:+ id) = Some (EProtectedRoute false (EPage SubjectPractice)).
Proof.
  intros Hfree Hne.
  assert (He : segments ("/exam/" +:+ id) = ["exam"; id]).
  { unfold segments. simpl. change ("" +:+ id) with id.
    rewrite (split_slash_free id "" Hfree). change ("" +:+ id) with id. simpl.
    now rewrite (eqb_empty_false id Hne). }
  assert (Hr : segments ("/results/" +:+ id) = ["results"; id]).
  { unfold segments. simpl. change ("" +:+ id) with id.
    rewrite (split_slash_free id "" Hfree). change ("" +:+ id) with id. simpl.
    now rewrite (eqb_empty_false id Hne). }
  assert (Hs : segments ("/subjects/" +:+ id) = ["subjects"; id]).
  { unfold segments. simpl. change ("" +:+ id) with id.
    rewrite (split_slash_free id "" Hfree). change ("" +:+ id) with id. simpl.
    now rewrite (eqb_empty_false id Hne). }
  unfold Routes. rewrite !matches_by_segments, He, Hr, Hs.
  repeat split; vm_compute; reflexivity.
Qed.

(** ** Following redirects *)

Section Journeys.

Variable REACT_APP_BACKEND_URL : option string.
Variable backend : Backend.

Local Abbreviation checkAuth := (checkAuth REACT_APP_BACKEND_URL backend).
Local Abbreviation mount := (mount REACT_APP_BACKEND_URL backend).
Local Abbreviation visit := (visit REACT_APP_BACKEND_URL backend).
Local Abbreviation browse := (browse REACT_APP_BACKEND_URL backend).

Lemma redirect_of_app (w w' : World) (vs : list View) :
  commits w' = commits w ++ vs ->
  redirect_of w w' = match last vs with
                     | Some (VNavigate to _) => Some to
                     | _ => None
                     end.
Proof.
  intros H. unfold redirect_of, new_commits. rewrite H. now rewrite drop_app_length.
Qed.

(** Where a mount leaves the screen. *)
Lemma mount_outcome (adminOnly : bool) (children : Element) (w : World) :
  exists v w',
    mount adminOnly children w = (Normal tt, w')
    /\ commits w' = commits w ++ [VSpinner; v]
    /\ (v = VNavigate "/login" true
        \/ (adminOnly = true /\ v = VNavigate "/dashboard" true)
        \/ settled v = true).
Proof.
  destruct (mount_run REACT_APP_BACKEND_URL backend adminOnly children w)
    as [v [Hv Hm]].
  cbv zeta in Hv, Hm. exists v. eexists. split; [exact Hm|]. split; [reflexivity|].
  set (s := authState _) in Hv.
  assert (Hl : loading s = false) by apply checkAuth_resolved.
  destruct (authenticated s) eqn:Ha.
  - destruct (ProtectedRoute_authenticated children adminOnly s Hl Ha)
      as [b [Hb Hr]].
    rewrite Hr in Hv. injection Hv as <-. destruct b; [|now right; right].
    right; left. split; [|reflexivity].
    destruct adminOnly; [reflexivity | discriminate Hb].
  - rewrite (ProtectedRoute_unauthenticated children adminOnly s Hl Ha) in Hv.
    injection Hv as <-. now left.
Qed.

(** Where opening a pathname leaves the router: nowhere to go, or on the
    way to [/dashboard] or to [/login]. *)
Lemma visit_outcome (pathname : string) (w : World) :
  exists w',
    visit pathname w = (Normal tt, w')
    /\ (redirect_of w w' = None
        \/ redirect_of w w' = Some "/dashboard"
        \/ redirect_of w w' = Some "/login")
    /\ (w' = w \/ exists vs v, commits w' = commits w ++ vs /\ last vs = Some v).
Proof.
  unfold_visit. destruct (Routes pathname) as [e|] eqn:Hr.
  - apply Routes_Some_inv in Hr as [pat [Hin Hm]].
    each_route Hin Hm;
      try (eexists; split; [reflexivity|]; split;
           [ erewrite redirect_of_app by reflexivity; simpl; auto
           | right; eexists; eexists; split; reflexivity ]).
    all: match goal with
         | |- context [mount ?a ?c ?w0] =>
             destruct (mount_outcome a c w0) as (v & w' & -> & Hc & Hv);
             exists w'; split; [reflexivity|]; split;
             [ rewrite (redirect_of_app _ _ _ Hc); simpl;
               destruct Hv as [->|[[_ ->]|Hv]]; simpl; auto;
               destruct v; simpl in Hv; try discriminate Hv; auto
             | right; exists [VSpinner; v], v; auto ]
         end.
  - exists w. split; [reflexivity|]. split; [|now left].
    left. unfold redirect_of, new_commits. now rewrite drop_all.
Qed.

Lemma browse_step (n : nat) (pathname : string) (w : World) :
  browse (S n) pathname w
  = match visit pathname w with
    | (Normal _, w') =>
        match redirect_of w w' with
        | Some to => browse n to w'
        | None => (Normal tt, w')
        end
    | r => r
    end.
Proof. reflexivity. Qed.

Lemma no_redirect_settled (w w' : World) (vs : list View) (v : View) :
  commits w' = commits w ++ vs -> last vs = Some v -> redirect_of w w' = None ->
  last (commits w') = Some v /\ settled v = true.
Proof.
  intros Hc Hl Hr. rewrite (redirect_of_app _ _ _ Hc), Hl in Hr.
  split; [rewrite Hc, last_app, Hl; reflexivity|].
  destruct v; try reflexivity. discriminate Hr.
Qed.

Lemma browse_login (n : nat) (w : World) :
  browse (S n) "/login" w
  = (Normal tt,
     mkWorld (localStorage w) (network w) (authState w) (commits w ++ [VPage Login])).
Proof.
  rewrite browse_step.
  change (visit "/login" w) with (commit (VPage Login) w). unfold commit.
  erewrite redirect_of_app by reflexivity. reflexivity.
Qed.

Lemma browse_dashboard (n : nat) (w : World) :
  browse (S (S n)) "/dashboard" w = browse 2 "/dashboard" w
  /\ exists w' v, browse 2 "/dashboard" w = (Normal tt, w')
                  /\ last (commits w') = Some v /\ settled v = true.
Proof.
  rewrite (browse_step (S n) "/dashboard"), (browse_step 1 "/dashboard").
  change (visit "/dashboard" w) with (mount false (EPage Dashboard) w).
  destruct (mount_outcome false (EPage Dashboard) w) as (v & w' & -> & Hc & Hv).
  rewrite (redirect_of_app _ _ _ Hc).
  destruct Hv as [->|[[Hf _]|Hv]]; [|discriminate Hf|].
  - simpl_route. rewrite !browse_login. split; [reflexivity|].
    eexists. exists (VPage Login). split; [reflexivity|]. simpl.
    split; [|reflexivity]. now rewrite last_app.
  - destruct v; try discriminate Hv; simpl_route;
      (split; [reflexivity|]; eexists; eexists; split; [reflexivity|];
       split; [rewrite Hc, last_app; reflexivity | reflexivity]).
Qed.

(** X16.  Redirects never loop.  From any pathname, with any store and any
    backend, opening the page and following the redirects comes to rest
    after three routes at most: more hops change nothing, nothing throws,
    and the view left on the screen is no redirect (or nothing was
    rendered, the pathname matching no route). *)
Theorem redirects_settle (pathname : string) (w : World) (k : nat) :
  browse (3 + k) pathname w = browse 3 pathname w
  /\ exists w',
       browse 3 pathname w = (Normal tt, w')
       /\ (w' = w \/ exists v, last (commits w') = Some v /\ settled v = true).
Proof.
  change (3 + k) with (S (S (S k))).
  rewrite (browse_step (S (S k)) pathname), (browse_step 2 pathname).
  destruct (visit_outcome pathname w) as (w1 & -> & Hred & Hc).
  destruct Hred as [H|[H|H]]; rewrite H.
  - split; [reflexivity|]. exists w1. split; [reflexivity|].
    destruct Hc as [->|(vs & v & Hc & Hl)]; [now left|]. right. exists v.
    exact (no_redirect_settled _ _ _ _ Hc Hl H).
  - destruct (browse_dashboard k w1) as (-> & w' & v & -> & Hl & Hs).
    split; [reflexivity|]. exists w'. split; [reflexivity|]. right. eauto.
  - rewrite !browse_login. split; [reflexivity|]. eexists. split; [reflexivity|].
    right. exists (VPage Login). simpl. split; [|reflexivity]. now rewrite last_app.
Qed.

Lemma mount_without_credentials
    (adminOnly : bool) (children : Element) (w : World) :
  session_check (localStorage w) = false ->
  JS.truthy (localStorage w !! "token") = false ->
  mount adminOnly children w
  = (Normal tt,
     mkWorld (localStorage w) (network w) Unauthenticated
             (commits w ++ [VSpinner; VNavigate "/login" true])).
Proof.
  intros Hs Ht.
  destruct (mount_run REACT_APP_BACKEND_URL backend adminOnly children w)
    as [v [Hv Hm]].
  cbv zeta in Hv, Hm. rewrite Hm. clear Hm.
  rewrite checkAuth_run in Hv |- *. cbv zeta in Hv |- *. simpl in Hv |- *.
  rewrite Hs, Ht in Hv |- *. simpl in Hv |- *. injection Hv as <-.
  now rewrite app_nil_r.
Qed.


(** X18.  The same visitor opening [/simulators] is sent to [/dashboard]
    by the route table, from there to [/login] by the guard, and ends on
    the login page, still without a request. *)
Theorem simulators_without_credentials_ends_at_login (w : World) :
  session_check (localStorage w) = false ->
  JS.truthy (localStorage w !! "token") = false ->
  browse 3 "/simulators" w
  = (Normal tt,
     mkWorld (localStorage w) (network w) Unauthenticated
             (commits w ++ [VNavigate "/dashboard" true; VSpinner;
                            VNavigate "/login" true; VPage Login])).
Proof.
  intros Hs Ht. rewrite browse_step.
  change (visit "/simulators" w) with (commit (VNavigate "/dashboard" true) w).
  unfold commit. erewrite redirect_of_app by reflexivity. simpl_route.
  rewrite browse_step.
  set (w1 := mkWorld _ _ _ _).
  change (visit "/dashboard" w1) with (mount false (EPage Dashboard) w1).
  rewrite (mount_without_credentials false (EPage Dashboard) w1 Hs Ht).
  erewrite redirect_of_app by reflexivity. simpl_route.
  rewrite browse_login. simpl. now rewrite <- !app_assoc.
Qed.

End Journeys.



(** ** The animated counter *)

Lemma counter_effect_after_start (rs : list Counter.Render) (st : Counter.Instance) :
  Counter.hasAnimated st = true -> fold_left Counter.effect rs st = st.
Proof.
  intros H. induction rs as [|r rs IH]; simpl; [reflexivity|].
  unfold Counter.effect at 2. rewrite H, andb_false_r. exact IH.
Qed.

Lemma targetValue_not_nullish (p : Counter.Props) :
  JS.nullish (Counter.targetValue p) = false.
Proof.
  unfold Counter.targetValue, Counter.coalesce.
  destruct (JS.nullish (Counter.value p)) eqn:Hv.
  - destruct (JS.nullish (Counter.end_ p)) eqn:He; [reflexivity | now rewrite He].
  - now rewrite Hv, Hv.
Qed.

(** X19.  The counter animates once.  Over any run of renders, the effect
    hands [requestAnimationFrame] one animation at most: the one of the
    first render that is in view, with the clock, the target
    [value ?? end ?? 0] and the duration of that render.  Renders that come
    later, with other props or a later clock, start nothing and change
    nothing, and the target an animation runs to is never [null] or
    [undefined]. *)
Theorem counter_animates_once (renders : list Counter.Render) :
  Counter.run renders
  = match List.find Counter.isInView renders with
    | Some r =>
        Counter.mkInstance true
          [Counter.mkAnimation (Counter.now r) (Counter.targetValue (Counter.props r))
             (Counter.default_param (Counter.duration (Counter.props r)) (JNumber 2))]
    | None => Counter.initial
    end
  /\ length (Counter.requested (Counter.run renders)) <= 1
  /\ forall a, In a (Counter.requested (Counter.run renders)) ->
               JS.nullish (Counter.target a) = false.
Proof.
  assert (Hrun : Counter.run renders
    = match List.find Counter.isInView renders with
      | Some r =>
          Counter.mkInstance true
            [Counter.mkAnimation (Counter.now r)
               (Counter.targetValue (Counter.props r))
               (Counter.default_param (Counter.duration (Counter.props r))
                                      (JNumber 2))]
      | None => Counter.initial
      end).
  { unfold Counter.run. induction renders as [|r rs IH]; simpl; [reflexivity|].
    unfold Counter.effect at 2. simpl.
    destruct (Counter.isInView r); simpl; [|exact IH].
    now apply counter_effect_after_start. }
  split; [exact Hrun|]. rewrite Hrun.
  destruct (List.find Counter.isInView renders) as [r|]; simpl.
  - split; [lia|]. intros a [<-|[]]. apply targetValue_not_nullish.
  - split; [lia|]. intros a [].
Qed.

(** ** The further properties at sample inputs *)

Lemma no_request_iff_witness :
  let ls : gmap string string :=
    <["user" := ""]> (<["isAuthenticated" := "true"]> (<["token" := ""]> ∅)) in
  new_exchanges (fresh ls) (snd (checkAuth None (backend_200 student) (fresh ls))) = [].
Proof.
  cbv zeta. apply no_request_iff. split; reflexivity.
Defined.

Lemma request_shape_witness :
  let w := fresh full_store in
  let req := token_request None "t0k3n" in
  let out := Resolved (mkResponse true (Some student)) in
  In (req, out) (new_exchanges w (snd (checkAuth None (backend_bearer_only student) w)))
  /\ url req = "http://localhost:8000/api/auth/me"
  /\ headers req = [("Authorization", "Bearer t0k3n")].
Proof.
  cbv zeta.
  assert (H : In (token_request None "t0k3n", Resolved (mkResponse true (Some student)))
                 (new_exchanges (fresh full_store)
                    (snd (checkAuth None (backend_bearer_only student)
                            (fresh full_store))))).
  { vm_compute. right. left. reflexivity. }
  split; [exact H|].
  destruct (request_shape None (backend_bearer_only student) (fresh full_store) _ _ H)
    as (Hu & _ & Hh & _).
  split; [exact Hu | exact Hh].
Defined.

Lemma checkAuth_forgets_state_witness :
  let w1 := fresh full_store in
  let w2 := mkWorld full_store [] (Authenticated administrator) [VSpinner] in
  localStorage w1 = localStorage w2 /\ network w1 = network w2
  /\ authState (snd (checkAuth None (backend_200 student) w1))
     = authState (snd (checkAuth None (backend_200 student) w2)).
Proof.
  cbv zeta. split; [reflexivity | split; [reflexivity|]].
  apply (checkAuth_forgets_state None (backend_200 student) (fresh full_store)
           (mkWorld full_store [] (Authenticated administrator) [VSpinner])
           eq_refl eq_refl).
Defined.

Lemma accepted_credentials_render_children_witness :
  let w := fresh token_store in
  JS.truthy (localStorage w !! "token") = true
  /\ new_commits w (snd (mount None (backend_200 student) false (EPage Dashboard) w))
     = [VSpinner;
        VAuthProvider (mkAuthContextValue student setUser)
                      [EPage Dashboard; EFeedbackButton]].
Proof.
  cbv zeta. split; [reflexivity|].
  apply (accepted_credentials_render_children None (backend_200 student)
           (EPage Dashboard) student (fresh token_store)).
  - right. reflexivity.
  - intros h req. reflexivity.
Defined.

Lemma cleared_store_logs_out_witness :
  let w := mkWorld empty_store [] (Authenticated administrator) [] in
  session_check (localStorage w) = false
  /\ JS.truthy (localStorage w !! "token") = false
  /\ authState (snd (location_change None (backend_200 administrator) true
                       (EPage AdminUsers) w)) = Unauthenticated.
Proof.
  cbv zeta. split; [reflexivity | split; [reflexivity|]].
  apply (cleared_store_logs_out None (backend_200 administrator) true (EPage AdminUsers)
           (mkWorld empty_store [] (Authenticated administrator) []) eq_refl eq_refl).
Defined.

Lemma children_only_after_verification_witness :
  let w := fresh full_store in
  let w' := snd (mount None (backend_200 administrator) true (EPage AdminUsers) w) in
  let value := mkAuthContextValue administrator setUser in
  In (VAuthProvider value [EPage AdminUsers; EFeedbackButton]) (new_commits w w')
  /\ JS.optional_member (ctx_user value) "role" = Normal (JString "admin").
Proof.
  cbv zeta.
  assert (H : In (VAuthProvider (mkAuthContextValue administrator setUser)
                                [EPage AdminUsers; EFeedbackButton])
                 (new_commits (fresh full_store)
                    (snd (mount None (backend_200 administrator) true
                            (EPage AdminUsers) (fresh full_store))))).
  { vm_compute. right. left. reflexivity. }
  split; [exact H|].
  destruct (children_only_after_verification None (backend_200 administrator) true
              (EPage AdminUsers) (fresh full_store) _ _ H) as (_ & _ & Hrole).
  exact (Hrole eq_refl).
Defined.

Lemma admin_children_iff_role_admin_witness :
  loading (Authenticated administrator) = false
  /\ authenticated (Authenticated administrator) = true
  /\ render_element (AdminRoutes (EPage AdminUsers)) (Authenticated administrator)
     = Normal (VAuthProvider (mkAuthContextValue administrator setUser)
                             [EAdminDataProvider (EPage AdminUsers); EFeedbackButton]).
Proof.
  split; [reflexivity | split; [reflexivity|]].
  apply (admin_children_iff_role_admin (EPage AdminUsers) (Authenticated administrator)
           eq_refl eq_refl).
  reflexivity.
Defined.

Lemma setUser_then_render_witness :
  let w := mkWorld token_store [] (Authenticated administrator) [] in
  loading (authState w) = false /\ authenticated (authState w) = true
  /\ ProtectedRoute true (EPage AdminUsers)
       (authState (snd (setAuthState (setUser student) w)))
     = Normal (VNavigate "/dashboard" true).
Proof.
  cbv zeta. split; [reflexivity | split; [reflexivity|]].
  apply (setUser_then_render (EPage AdminUsers) student
           (mkWorld token_store [] (Authenticated administrator) []) eq_refl eq_refl).
  discriminate.
Defined.



Lemma deep_paths_match_nothing_witness :
  3 <= length (segments "/admin/users/7")
  /\ Routes "/admin/users/7" = None.
Proof.
  assert (H : 3 <= length (segments "/admin/users/7")) by (vm_compute; lia).
  split; [exact H|].
  apply (deep_paths_match_nothing None backend_down "/admin/users/7"
           (fresh empty_store) H).
Defined.

Lemma parameter_routes_witness :
  slash_free "unam-2024" = true /\ "unam-2024" <> ""
  /\ Routes "/exam/unam-2024" = Some (EProtectedRoute false (EPage Exam)).
Proof.
  split; [reflexivity | split; [discriminate|]].
  apply (parameter_routes "unam-2024" eq_refl). discriminate.
Defined.


Lemma simulators_without_credentials_ends_at_login_witness :
  session_check (localStorage (fresh empty_store)) = false
  /\ snd (browse None (backend_200 student) 3 "/simulators" (fresh empty_store))
     = mkWorld empty_store [] Unauthenticated
               [VNavigate "/dashboard" true; VSpinner;
                VNavigate "/login" true; VPage Login].
Proof.
  split; [reflexivity|].
  rewrite (simulators_without_credentials_ends_at_login None (backend_200 student)
             (fresh empty_store) eq_refl eq_refl).
  reflexivity.
Defined.
